(** * Model Compression Toolkit: GPTQ configuration, quantization dispatcher
      and second-moment correction

    A shallow embedding of
    - [model_compression_toolkit/gptq/common/gptq_config.py],
    - [model_compression_toolkit/exporter/model_wrapper/keras/builder/node_to_dispatcher.py],
    - [tests/keras_tests/feature_networks_tests/feature_networks/second_moment_correction_test.py].

    Python objects that are shared and mutated (the [DefaultDict] default
    argument, quantizer instances, graphs and their nodes) live in explicit
    stores indexed by locations; everything else is a value. *)

From Stdlib Require Import ZArith QArith.
From stdpp Require Import gmap strings list fin_maps.

Local Open Scope Z_scope.
Local Open Scope string_scope.

(** ** Python runtime: exceptions, results, locations *)

Inductive PyExn :=
| ConfigurationError (msg : string)
| TypeError (msg : string)
| AttributeError (msg : string)
| ZeroDivisionError (msg : string)
| OverflowError (msg : string)
| IndexError (msg : string)
| AssertionError (msg : string).

Inductive Result (A : Type) :=
| Ok (a : A)
| Raise (e : PyExn).
Arguments Ok {A} a.
Arguments Raise {A} e.

Definition is_Ok {A} (r : Result A) : bool :=
  match r with Ok _ => true | Raise _ => false end.

(** Computations over a state [S] that may raise; the state reached when an
    exception is raised is kept, the rest of the computation is skipped. *)
Definition St (S A : Type) : Type := S -> Result A * S.

Definition ret {S A} (a : A) : St S A := fun s => (Ok a, s).

Definition raise {S A} (e : PyExn) : St S A := fun s => (Raise e, s).

Definition bind {S A B} (m : St S A) (k : A -> St S B) : St S B :=
  fun s =>
    match m s with
    | (Ok a, s') => k a s'
    | (Raise e, s') => (Raise e, s')
    end.

Notation "'let*' x := m 'in' k" := (bind m (fun x => k))
  (at level 10, x name, m at level 100, k at level 200).
Notation "m >> k" := (bind m (fun _ => k))
  (at level 100, k at level 200, right associativity).

Definition lift_result {S A} (r : Result A) : St S A := fun s => (r, s).

(** Object identities. *)
Abbreviation loc := positive.

(** A value of Python type [Any] whose content the configuration never
    inspects (optimizers, loss and log callables). *)
Inductive Any :=
| PyNone
| PyOpaque (tag : string).

#[global] Instance Any_eq_dec : EqDecision Any.
Proof. solve_decision. Defined.

(** ** [gptq_config.py] *)

Module GPTQ.

(** [class RoundingType(Enum)]: [STE = 0], [SoftQuantizer = 1]. *)
Inductive RoundingType :=
| STE
| SoftQuantizer.

#[global] Instance RoundingType_eq_dec : EqDecision RoundingType.
Proof. solve_decision. Defined.

Definition RoundingType_value (r : RoundingType) : Z :=
  match r with STE => 0 | SoftQuantizer => 1 end.

(** The [rounding_type] argument is only annotated: at run time it holds
    either a member of the enum or some other value, which compares unequal
    to every member. *)
Inductive RoundingValue :=
| Member (r : RoundingType)
| NonMember (v : Any).

#[global] Instance RoundingValue_eq_dec : EqDecision RoundingValue.
Proof. solve_decision. Defined.

(** Modelled from the spec: the classes of [gptq_quantizer_config.py], which
    the source imports but which is not part of the sources at hand.
    [SoftQuantizerConfig] derives from [GPTQQuantizerConfig]; further classes
    are user subclasses of a class of the hierarchy, or classes unrelated to
    it. *)
Inductive PyClass :=
| GPTQQuantizerConfig
| SoftQuantizerConfig
| UserSubclass (name : string) (base : PyClass)
| UnrelatedClass (name : string).

#[global] Instance PyClass_eq_dec : EqDecision PyClass.
Proof. solve_decision. Defined.

(** [issubclass c d], following the chain of base classes. *)
Fixpoint issubclass (c d : PyClass) : bool :=
  bool_decide (c = d) ||
  match c with
  | GPTQQuantizerConfig => false
  | SoftQuantizerConfig => bool_decide (d = GPTQQuantizerConfig)
  | UserSubclass _ b => issubclass b d
  | UnrelatedClass _ => false
  end.

(** A quantizer-config object: its run-time class ([type(x)]) and the
    [n_batches] attribute read by [get_extended_quantizer_parametes]
    ([None] until the trainer sets it). *)
Record QuantizerConfig := {
  qc_type : PyClass;
  n_batches : option Z
}.

Definition isinstance (q : QuantizerConfig) (c : PyClass) : bool :=
  issubclass (qc_type q) c.

(** [SoftQuantizerConfig()], the default of the [quantizer_config] argument. *)
Definition SoftQuantizerConfig_new : QuantizerConfig :=
  {| qc_type := SoftQuantizerConfig; n_batches := None |}.

Definition GPTQQuantizerConfig_new : QuantizerConfig :=
  {| qc_type := GPTQQuantizerConfig; n_batches := None |}.

(** Modelled from the spec: [DefaultDict] of [core/common/defaultdict.py]
    (not part of the sources at hand), "a mapping with a per-key
    fallback-value factory used for bit-width-indexed settings". The factory
    is a constant function, kept as the value it returns. *)
Record DefaultDict := {
  known_dict : gmap Z Z;
  default_factory : option Z
}.

Definition DefaultDict_get (d : DefaultDict) (key : Z) : option Z :=
  match known_dict d !! key with
  | Some v => Some v
  | None => default_factory d
  end.

(** [d.known_dict[key] = v] *)
Definition DefaultDict_setitem (d : DefaultDict) (key v : Z) : DefaultDict :=
  {| known_dict := <[key := v]> (known_dict d);
     default_factory := default_factory d |}.

(** The interpreter state the configuration code touches: the store of
    [DefaultDict] objects and the records the global logger has emitted. *)
Record Runtime := {
  dd_heap : gmap loc DefaultDict;
  log : list string
}.

Definition empty_runtime : Runtime := {| dd_heap := ∅; log := [] |}.

(** Computations over the runtime that may raise. *)
Abbreviation M := (St Runtime).

(** Allocation of a new [DefaultDict] object. *)
Definition alloc_dd (d : DefaultDict) : M loc :=
  fun rt =>
    let l := fresh (dom (dd_heap rt)) in
    (Ok l, {| dd_heap := <[l := d]> (dd_heap rt); log := log rt |}).

(** Mutation of the [DefaultDict] object at [l]; a dangling reference cannot
    occur in Python and is left without effect. *)
Definition dd_setitem (l : loc) (key v : Z) : M unit :=
  fun rt =>
    (Ok tt, {| dd_heap := alter (fun d => DefaultDict_setitem d key v) l (dd_heap rt);
               log := log rt |}).

Definition dd_get (l : loc) (key : Z) (rt : Runtime) : option Z :=
  d ← dd_heap rt !! l; DefaultDict_get d key.

(** *** The configuration classes *)

Inductive ConfigClass :=
| GradientPTQConfig
| GradientPTQConfigV2.

#[global] Instance ConfigClass_eq_dec : EqDecision ConfigClass.
Proof. solve_decision. Defined.

(** Names bound in each class body, and the method resolution order. *)
Definition class_dict (c : ConfigClass) : list string :=
  match c with
  | GradientPTQConfig => ["__init__"; "_verify_quantizer_config"]
  | GradientPTQConfigV2 =>
      ["__init__"; "from_v1"; "get_extended_quantizer_parametes"]
  end.

Definition mro (c : ConfigClass) : list ConfigClass :=
  match c with
  | GradientPTQConfig => [GradientPTQConfig]
  | GradientPTQConfigV2 => [GradientPTQConfigV2; GradientPTQConfig]
  end.

Definition has_method (c : ConfigClass) (name : string) : bool :=
  existsb (fun k => bool_decide (name ∈ class_dict k)) (mro c).

(** An instance: its class and its attributes. [n_iter] holds an int or
    [None]; [lsb_change_per_bit_width] is a reference to a [DefaultDict];
    [quantizer_config] and [n_epochs] are [None] while the attribute has not
    been assigned. *)
Record Config := {
  cfg_class : ConfigClass;
  n_iter : option Z;
  optimizer : Any;
  optimizer_rest : Any;
  loss : Any;
  log_function : Any;
  train_bias : bool;
  quantization_parameters_learning : bool;
  rounding_type : RoundingValue;
  lsb_change_per_bit_width : loc;
  eps : Q;
  use_jac_based_weights : bool;
  num_samples_for_loss : Z;
  norm_weights : bool;
  optimizer_quantization_parameter : Any;
  optimizer_bias : Any;
  log_norm : bool;
  weights_n_iter : Z;
  quantizer_config : option QuantizerConfig;
  n_epochs : option Z
}.

(** The keyword arguments of both constructors. An argument with a mutable
    default ([lsb_change_per_bit_width], [quantizer_config]) is [None] when
    the caller omits it. *)
Record Kwargs := {
  kw_optimizer : Any;
  kw_optimizer_rest : Any;
  kw_loss : Any;
  kw_log_function : Any;
  kw_train_bias : bool;
  kw_quantization_parameters_learning : bool;
  kw_rounding_type : RoundingValue;
  kw_lsb_change_per_bit_width : option loc;
  kw_eps : Q;
  kw_use_jac_based_weights : bool;
  kw_num_samples_for_loss : Z;
  kw_norm_weights : bool;
  kw_optimizer_quantization_parameter : Any;
  kw_optimizer_bias : Any;
  kw_log_norm : bool;
  kw_weights_n_iter : Z;
  kw_quantizer_config : option QuantizerConfig
}.

(** The call [GradientPTQConfig(n_iter, optimizer)] with every default. *)
Definition default_kwargs (opt : Any) : Kwargs :=
  {| kw_optimizer := opt;
     kw_optimizer_rest := PyNone;
     kw_loss := PyNone;
     kw_log_function := PyNone;
     kw_train_bias := true;
     kw_quantization_parameters_learning := false;
     kw_rounding_type := Member SoftQuantizer;
     kw_lsb_change_per_bit_width := None;
     kw_eps := (1 # 1000000)%Q;
     kw_use_jac_based_weights := true;
     kw_num_samples_for_loss := 16;
     kw_norm_weights := false;
     kw_optimizer_quantization_parameter := PyNone;
     kw_optimizer_bias := PyNone;
     kw_log_norm := true;
     kw_weights_n_iter := 50;
     kw_quantizer_config := None |}.

Definition with_rounding (rt : RoundingValue) (qpl : bool)
    (qc : option QuantizerConfig) (kw : Kwargs) : Kwargs :=
  {| kw_optimizer := kw_optimizer kw;
     kw_optimizer_rest := kw_optimizer_rest kw;
     kw_loss := kw_loss kw;
     kw_log_function := kw_log_function kw;
     kw_train_bias := kw_train_bias kw;
     kw_quantization_parameters_learning := qpl;
     kw_rounding_type := rt;
     kw_lsb_change_per_bit_width := kw_lsb_change_per_bit_width kw;
     kw_eps := kw_eps kw;
     kw_use_jac_based_weights := kw_use_jac_based_weights kw;
     kw_num_samples_for_loss := kw_num_samples_for_loss kw;
     kw_norm_weights := kw_norm_weights kw;
     kw_optimizer_quantization_parameter := kw_optimizer_quantization_parameter kw;
     kw_optimizer_bias := kw_optimizer_bias kw;
     kw_log_norm := kw_log_norm kw;
     kw_weights_n_iter := kw_weights_n_iter kw;
     kw_quantizer_config := qc |}.

(** [self.quantizer_config = q] and [self.n_epochs = n]. *)
Definition set_quantizer_config (q : QuantizerConfig) (c : Config) : Config :=
  {| cfg_class := cfg_class c; n_iter := n_iter c; optimizer := optimizer c;
     optimizer_rest := optimizer_rest c; loss := loss c;
     log_function := log_function c; train_bias := train_bias c;
     quantization_parameters_learning := quantization_parameters_learning c;
     rounding_type := rounding_type c;
     lsb_change_per_bit_width := lsb_change_per_bit_width c; eps := eps c;
     use_jac_based_weights := use_jac_based_weights c;
     num_samples_for_loss := num_samples_for_loss c;
     norm_weights := norm_weights c;
     optimizer_quantization_parameter := optimizer_quantization_parameter c;
     optimizer_bias := optimizer_bias c; log_norm := log_norm c;
     weights_n_iter := weights_n_iter c;
     quantizer_config := Some q; n_epochs := n_epochs c |}.

Definition set_n_epochs (n : Z) (c : Config) : Config :=
  {| cfg_class := cfg_class c; n_iter := n_iter c; optimizer := optimizer c;
     optimizer_rest := optimizer_rest c; loss := loss c;
     log_function := log_function c; train_bias := train_bias c;
     quantization_parameters_learning := quantization_parameters_learning c;
     rounding_type := rounding_type c;
     lsb_change_per_bit_width := lsb_change_per_bit_width c; eps := eps c;
     use_jac_based_weights := use_jac_based_weights c;
     num_samples_for_loss := num_samples_for_loss c;
     norm_weights := norm_weights c;
     optimizer_quantization_parameter := optimizer_quantization_parameter c;
     optimizer_bias := optimizer_bias c; log_norm := log_norm c;
     weights_n_iter := weights_n_iter c;
     quantizer_config := quantizer_config c; n_epochs := Some n |}.

(** The objects created when the two class statements are executed: each
    [def __init__] evaluates its default [DefaultDict({}, lambda: 1)] once. *)
Record ClassEnv := {
  v1_default_lsb : loc;
  v2_default_lsb : loc
}.

Definition DefaultDict_default : DefaultDict :=
  {| known_dict := ∅; default_factory := Some 1 |}.

Definition define_classes : M ClassEnv :=
  let* d1 := alloc_dd DefaultDict_default in
  let* d2 := alloc_dd DefaultDict_default in
  ret {| v1_default_lsb := d1; v2_default_lsb := d2 |}.

(** [_verify_quantizer_config] *)
Definition _verify_quantizer_config (quantizer_config : QuantizerConfig)
    (rounding_type : RoundingValue) : bool :=
  if bool_decide (rounding_type = Member SoftQuantizer)
  then bool_decide (qc_type quantizer_config = SoftQuantizerConfig)
  else bool_decide (qc_type quantizer_config = GPTQQuantizerConfig).

(** How the f-string of the error message prints its two arguments. *)
Definition class_name (c : PyClass) : string :=
  match c with
  | GPTQQuantizerConfig =>
      "model_compression_toolkit.gptq.common.gptq_quantizer_config.GPTQQuantizerConfig"
  | SoftQuantizerConfig =>
      "model_compression_toolkit.gptq.common.gptq_quantizer_config.SoftQuantizerConfig"
  | UserSubclass name _ => name
  | UnrelatedClass name => name
  end.

Definition type_repr (c : PyClass) : string :=
  "<class '" ++ class_name c ++ "'>".

Definition rounding_str (r : RoundingValue) : string :=
  match r with
  | Member STE => "RoundingType.STE"
  | Member SoftQuantizer => "RoundingType.SoftQuantizer"
  | NonMember PyNone => "None"
  | NonMember (PyOpaque tag) => tag
  end.

Definition msg_param_learning : string :=
  "Quantization parameters learning is not supported with STE rounding.".

Definition msg_not_suitable (q : QuantizerConfig) (r : RoundingValue) : string :=
  "Quantizer config of type " ++ type_repr (qc_type q) ++
  " is not suitable for rounding type " ++ rounding_str r.

Definition with_mutable_args (lsb : option loc) (qc : option QuantizerConfig)
    (kw : Kwargs) : Kwargs :=
  {| kw_optimizer := kw_optimizer kw;
     kw_optimizer_rest := kw_optimizer_rest kw;
     kw_loss := kw_loss kw;
     kw_log_function := kw_log_function kw;
     kw_train_bias := kw_train_bias kw;
     kw_quantization_parameters_learning := kw_quantization_parameters_learning kw;
     kw_rounding_type := kw_rounding_type kw;
     kw_lsb_change_per_bit_width := lsb;
     kw_eps := kw_eps kw;
     kw_use_jac_based_weights := kw_use_jac_based_weights kw;
     kw_num_samples_for_loss := kw_num_samples_for_loss kw;
     kw_norm_weights := kw_norm_weights kw;
     kw_optimizer_quantization_parameter := kw_optimizer_quantization_parameter kw;
     kw_optimizer_bias := kw_optimizer_bias kw;
     kw_log_norm := kw_log_norm kw;
     kw_weights_n_iter := kw_weights_n_iter kw;
     kw_quantizer_config := qc |}.

(** [config.__dict__] without ['n_iter'] and ['n_epochs'], as keyword
    arguments: an attribute that was never assigned is an omitted argument. *)
Definition dict_kwargs (c : Config) : Kwargs :=
  {| kw_optimizer := optimizer c;
     kw_optimizer_rest := optimizer_rest c;
     kw_loss := loss c;
     kw_log_function := log_function c;
     kw_train_bias := train_bias c;
     kw_quantization_parameters_learning := quantization_parameters_learning c;
     kw_rounding_type := rounding_type c;
     kw_lsb_change_per_bit_width := Some (lsb_change_per_bit_width c);
     kw_eps := eps c;
     kw_use_jac_based_weights := use_jac_based_weights c;
     kw_num_samples_for_loss := num_samples_for_loss c;
     kw_norm_weights := norm_weights c;
     kw_optimizer_quantization_parameter := optimizer_quantization_parameter c;
     kw_optimizer_bias := optimizer_bias c;
     kw_log_norm := log_norm c;
     kw_weights_n_iter := weights_n_iter c;
     kw_quantizer_config := quantizer_config c |}.

(** Python numerics of [from_v1]: [round] of an int is that int; [/] on two
    ints is true division, whose result is the double nearest to the exact
    quotient; [int] of a double truncates toward zero. *)
Definition py_round (n : Z) : Z := n.

(** The floor of [A / (B * 2^e)], for positive [A] and [B]. *)
Definition floor_scaled (A B e : Z) : Z :=
  (if 0 <=? e then A / (B * 2 ^ e) else (A * 2 ^ (- e)) / B)%Z.

(** [N / D] rounded to the nearest integer, ties to the even one. *)
Definition round_half_even (N D : Z) : Z :=
  let q := (N / D)%Z in
  let r := (N mod D)%Z in
  if ((D <? 2 * r) || ((D =? 2 * r) && Z.odd q))%Z then (q + 1)%Z else q.

(** The exponent of the unit in the last place of the binary64 number that
    represents [A / B]: the quotient scaled by it has 53 significant bits,
    unless the quotient is subnormal (exponent -1074). *)
Definition binary64_exponent (A B : Z) : Z :=
  let e0 := (Z.log2 A - Z.log2 B - 53)%Z in
  let e := (if 2 ^ 53 <=? floor_scaled A B e0 then e0 + 1 else e0)%Z in
  Z.max e (-1074).

(** The significand of the double nearest to [A / B] at that exponent. *)
Definition binary64_significand (A B e : Z) : Z :=
  if (0 <=? e)%Z then round_half_even A (B * 2 ^ e)
  else round_half_even (A * 2 ^ (- e)) B.

(** The number [m * 2^e] as a rational. *)
Definition scaled_to_Q (m e : Z) : Q :=
  if (0 <=? e)%Z then inject_Z (m * 2 ^ e)
  else Qmake m (Z.to_pos (2 ^ (- e))).

(** [a / b] for Python ints: [ZeroDivisionError] for a zero divisor,
    otherwise the correctly rounded double (round half to even) of the exact
    quotient, [OverflowError] when that is beyond the largest double. The
    double is given by its value, a rational. *)
Definition py_truediv (a b : Z) : Result Q :=
  if bool_decide (b = 0) then Raise (ZeroDivisionError "division by zero")
  else if bool_decide (a = 0) then Ok (inject_Z 0)
  else
    let A := Z.abs a in
    let B := Z.abs b in
    let e := binary64_exponent A B in
    let m := binary64_significand A B e in
    if ((0 <=? e) && (2 ^ 1024 <=? m * 2 ^ e))%Z
    then Raise (OverflowError "integer division result too large for a float")
    else Ok (scaled_to_Q (Z.sgn a * Z.sgn b * m) e).

(** [int(x)] for a finite double [x]. *)
Definition py_int (q : Q) : Z := Z.quot (Qnum q) (Z.pos (Qden q)).

(** Values stored in the dictionary of extra quantizer parameters. *)
Inductive PyVal :=
| VNone
| VBool (b : bool)
| VInt (n : Z)
| VRef (l : loc).

Definition opt_int (o : option Z) : PyVal :=
  match o with Some n => VInt n | None => VNone end.

Section Methods.

(** [common.Logger.error], the global logger, which is not part of the
    sources at hand. *)
Variable Logger_error : string -> M unit.

(** The keys of [gptq_constants.py], which is not part of the sources at
    hand. *)
Variables N_BATCHES_STR QUANT_PARAM_LEARNING_STR N_EPOCHS_STR MAX_LSB_STR : string.

(** [GradientPTQConfig.__init__], run on a new object of class [self_class]. *)
Definition GradientPTQConfig__init__ (env : ClassEnv) (self_class : ConfigClass)
    (n_iter : option Z) (kw : Kwargs) : M Config :=
  let lsb := default (v1_default_lsb env) (kw_lsb_change_per_bit_width kw) in
  let qc := default SoftQuantizerConfig_new (kw_quantizer_config kw) in
  (if kw_quantization_parameters_learning kw
      && bool_decide (kw_rounding_type kw = Member STE)
   then Logger_error msg_param_learning
   else ret tt) >>
  let self :=
    {| cfg_class := self_class;
       n_iter := n_iter;
       optimizer := kw_optimizer kw;
       optimizer_rest := kw_optimizer_rest kw;
       loss := kw_loss kw;
       log_function := kw_log_function kw;
       train_bias := kw_train_bias kw;
       quantization_parameters_learning := kw_quantization_parameters_learning kw;
       rounding_type := kw_rounding_type kw;
       lsb_change_per_bit_width := lsb;
       eps := kw_eps kw;
       use_jac_based_weights := kw_use_jac_based_weights kw;
       num_samples_for_loss := kw_num_samples_for_loss kw;
       norm_weights := kw_norm_weights kw;
       optimizer_quantization_parameter := kw_optimizer_quantization_parameter kw;
       optimizer_bias := kw_optimizer_bias kw;
       log_norm := kw_log_norm kw;
       weights_n_iter := kw_weights_n_iter kw;
       quantizer_config := None;
       n_epochs := None |} in
  if _verify_quantizer_config qc (kw_rounding_type kw)
  then ret (set_quantizer_config qc self)
  else (Logger_error (msg_not_suitable qc (kw_rounding_type kw)) >> ret self).

(** [GradientPTQConfigV2.__init__]: its own defaults are resolved first and
    passed on to [super().__init__] with [n_iter=None]. *)
Definition GradientPTQConfigV2__init__ (env : ClassEnv) (n_epochs : Z)
    (kw : Kwargs) : M Config :=
  let lsb := default (v2_default_lsb env) (kw_lsb_change_per_bit_width kw) in
  let qc := default SoftQuantizerConfig_new (kw_quantizer_config kw) in
  let* self := GradientPTQConfig__init__ env GradientPTQConfigV2 None
                 (with_mutable_args (Some lsb) (Some qc) kw) in
  ret (set_n_epochs n_epochs self).

(** [GradientPTQConfigV2.from_v1] *)
Definition from_v1 (env : ClassEnv) (n_ptq_iter : Z) (config_v1 : Config)
    : M Config :=
  let* n := match n_iter config_v1 with
            | Some n => ret n
            | None => raise (TypeError "type NoneType doesn't define __round__ method")
            end in
  let* q := lift_result (py_truediv (py_round n) n_ptq_iter) in
  let n_epochs := py_int q in
  match GPTQ.n_epochs config_v1 with
  | Some _ => raise (TypeError "__init__() got multiple values for argument 'n_epochs'")
  | None => GradientPTQConfigV2__init__ env n_epochs (dict_kwargs config_v1)
  end.

(** The body of [GradientPTQConfigV2.get_extended_quantizer_parametes]. *)
Definition get_extended_quantizer_parametes_body (self : Config)
    : Result (gmap string PyVal) :=
  if bool_decide (rounding_type self = Member SoftQuantizer) then
    match quantizer_config self with
    | None => Raise (AttributeError "quantizer_config")
    | Some qc =>
        match GPTQ.n_epochs self with
        | None => Raise (AttributeError "n_epochs")
        | Some ne =>
            Ok (<[N_EPOCHS_STR := VInt ne]>
                  (<[QUANT_PARAM_LEARNING_STR :=
                       VBool (quantization_parameters_learning self)]>
                     (<[N_BATCHES_STR := opt_int (n_batches qc)]> ∅)))
        end
    end
  else if bool_decide (rounding_type self = Member STE) then
    Ok (<[MAX_LSB_STR := VRef (lsb_change_per_bit_width self)]> ∅)
  else Ok ∅.

(** The call [self.get_extended_quantizer_parametes()]: the name is looked
    up along the classes of [self]. *)
Definition get_extended_quantizer_parametes (self : Config)
    : Result (gmap string PyVal) :=
  if has_method (cfg_class self) "get_extended_quantizer_parametes"
  then get_extended_quantizer_parametes_body self
  else Raise (AttributeError "get_extended_quantizer_parametes").

End Methods.

(** Modelled from the spec: [common.Logger.error], which is not part of the
    sources at hand. A configuration error is "logged as error and must halt
    construction": the message is recorded and a [ConfigurationError]
    carrying it is raised. *)
Definition Logger_error_spec (msg : string) : M unit :=
  fun rt =>
    (Raise (ConfigurationError msg),
     {| dd_heap := dd_heap rt; log := log rt ++ [msg] |}).

End GPTQ.

(** ** [node_to_dispatcher.py] *)

Module Dispatcher.

(** One output shape: a tuple of dimensions, [None] for the batch axis. *)
Abbreviation Shape := (list (option Z)).

(** [node.output_shape] is a list of shapes or one shape tuple. *)
Inductive OutputShape :=
| ShapeList (shapes : list Shape)
| ShapeTuple (shape : Shape).

Definition isinstance_list (o : OutputShape) : bool :=
  match o with ShapeList _ => true | ShapeTuple _ => false end.

Definition len_output_shape (o : OutputShape) : nat :=
  match o with ShapeList l => length l | ShapeTuple s => length s end.

Section Dispatch.

(** Layer types, attribute names and the interpreter state in which the
    quantizer objects live. *)
Context {NodeType : Type} {Attr : Type} `{Countable Attr} {Heap : Type}.

(** The attributes of a [BaseNode] that the function reads; the two flags
    are what [is_weights_quantization_enabled()] and
    [is_activation_quantization_enabled()] return. *)
Record BaseNode := {
  type : NodeType;
  output_shape : OutputShape;
  is_weights_quantization_enabled : bool;
  is_activation_quantization_enabled : bool
}.

(** [DEFAULT_KERAS_INFO.get_kernel_op_attributes] and the two quantizer
    factories of [node_to_quantizer.py], which are not part of the sources at
    hand. A factory returns a reference to a quantizer object and may raise. *)
Variable get_kernel_op_attributes : NodeType -> list Attr.
Variable get_weights_quantizer_for_node : BaseNode -> St Heap loc.
Variable get_activations_quantizer_for_node : BaseNode -> St Heap loc.

(** [qi.KerasNodeQuantizationDispatcher], kept as the two containers its
    constructor receives. *)
Record KerasNodeQuantizationDispatcher := {
  weight_quantizers : gmap Attr loc;
  activation_quantizers : list loc
}.

(** [for attr in weight_attrs: weight_quantizers[attr] = weight_quantizer] *)
Definition assign_all (weight_attrs : list Attr) (weight_quantizer : loc)
    (d : gmap Attr loc) : gmap Attr loc :=
  foldl (fun acc attr => <[attr := weight_quantizer]> acc) d weight_attrs.

Definition get_quantization_dispatcher (node : BaseNode)
    : St Heap KerasNodeQuantizationDispatcher :=
  let* weight_quantizers :=
    (if is_weights_quantization_enabled node then
       let weight_attrs := get_kernel_op_attributes (type node) in
       let* weight_quantizer := get_weights_quantizer_for_node node in
       ret (assign_all weight_attrs weight_quantizer ∅)
     else ret ∅) in
  let* activation_quantizers :=
    (if is_activation_quantization_enabled node then
       let num_of_outputs :=
         if isinstance_list (output_shape node)
         then len_output_shape (output_shape node) else 1%nat in
       let* q := get_activations_quantizer_for_node node in
       ret (replicate num_of_outputs q)
     else ret []) in
  ret {| weight_quantizers := weight_quantizers;
         activation_quantizers := activation_quantizers |}.

End Dispatch.

End Dispatcher.

(** ** [second_moment_correction_test.py] and the graph it works on *)

Module SecondMoment.

(** The layer classes the test networks are built from. *)
Inductive LayerClass :=
| InputLayer
| Conv2D
| DepthwiseConv2D
| Conv2DTranspose
| BatchNormalization
| Activation
| OtherLayer (name : string).

#[global] Instance LayerClass_eq_dec : EqDecision LayerClass.
Proof. solve_decision. Defined.

(** Modelled from the spec: [Graph] of [core/common] (not part of the sources
    at hand) "owns the set of nodes and edges", with [nodes] iterated in
    insertion order. Nodes are objects of their own: a graph holds references
    to them. *)
Record Graph := {
  nodes : list loc;
  edges : list (loc * loc)
}.

(** What a collection-valued query hands back: a Python [set] or a Python
    [list] of node references. *)
Inductive Found :=
| FoundSet (s : gset loc)
| FoundList (l : list loc).

(** [c[i]] for a non-negative index: a set is not subscriptable. *)
Definition py_getitem (c : Found) (i : nat) : Result loc :=
  match c with
  | FoundSet _ => Raise (TypeError "'set' object is not subscriptable")
  | FoundList l =>
      match l !! i with
      | Some x => Ok x
      | None => Raise (IndexError "list index out of range")
      end
  end.

Definition assertTrue (b : bool) : Result unit :=
  if b then Ok tt else Raise (AssertionError "False is not true").

Definition assertFalse (b : bool) : Result unit :=
  if b then Raise (AssertionError "True is not false") else Ok tt.

Section Graphs.

(** Weight tensors and reconstructed models are opaque; tensors can be
    compared with [==]. *)
Context {Tensor : Type} `{EqDecision Tensor} {Model : Type}.

(** Modelled from the spec: a [BaseNode] with its name, "op type" and "weight
    tensors (named)". *)
Record Node := {
  name : string;
  layer_class : LayerClass;
  weights : gmap string Tensor
}.

(** [node.get_weights_by_keys(key)] *)
Definition get_weights_by_keys (n : Node) (key : string) : option Tensor :=
  weights n !! key.

Definition set_weights (w : gmap string Tensor) (n : Node) : Node :=
  {| name := name n; layer_class := layer_class n; weights := w |}.

(** The object store: node objects and graph objects. *)
Record Store := {
  node_heap : gmap loc Node;
  graph_heap : gmap loc Graph
}.

Definition empty_store : Store := {| node_heap := ∅; graph_heap := ∅ |}.

(** The node objects of graph [g], in iteration order. *)
Definition graph_nodes (s : Store) (g : loc) : list Node :=
  match graph_heap s !! g with
  | Some gr => omap (fun l => node_heap s !! l) (nodes gr)
  | None => []
  end.

Definition has_name (h : gmap loc Node) (nm : string) (l : loc) : bool :=
  match h !! l with
  | Some n => bool_decide (name n = nm)
  | None => false
  end.

Definition named (s : Store) (g : loc) (nm : string) : list loc :=
  match graph_heap s !! g with
  | Some gr => List.filter (has_name (node_heap s) nm) (nodes gr)
  | None => []
  end.

(** Modelled from the spec: [Graph.find_node_by_name] (not part of the
    sources at hand), as section 4.1 has it: [find_node_by_name(name) -> set],
    the set of the nodes whose name equals the given name. *)
Definition find_node_by_name (s : Store) (g : loc) (nm : string) : Found :=
  FoundSet (list_to_set (named s g nm)).

(** [copy.deepcopy] on the node objects of a graph: every object reached is
    copied once ([memo] maps an original to its copy) into a fresh location.
    A reference to no object cannot occur in Python and is dropped. *)
Fixpoint deepcopy_nodes (ls : list loc) (memo : gmap loc loc)
    (h : gmap loc Node) : list loc * gmap loc loc * gmap loc Node :=
  match ls with
  | [] => ([], memo, h)
  | l :: ls' =>
      match memo !! l with
      | Some l' =>
          let '(out, memo', h') := deepcopy_nodes ls' memo h in
          (l' :: out, memo', h')
      | None =>
          match h !! l with
          | Some n =>
              let l' := fresh (dom h) in
              let '(out, memo', h') :=
                deepcopy_nodes ls' (<[l := l']> memo) (<[l' := n]> h) in
              (l' :: out, memo', h')
          | None => deepcopy_nodes ls' memo h
          end
      end
  end.

Definition remap (memo : gmap loc loc) (l : loc) : loc :=
  default l (memo !! l).

(** [copy.deepcopy(g)] *)
Definition deepcopy (g : loc) : St Store loc :=
  fun s =>
    match graph_heap s !! g with
    | None => (Raise (TypeError "not a Graph"), s)
    | Some gr =>
        let '(ns, memo, h) := deepcopy_nodes (nodes gr) ∅ (node_heap s) in
        let es := map (fun e => (remap memo e.1, remap memo e.2)) (edges gr) in
        let g' := fresh (dom (graph_heap s)) in
        (Ok g',
         {| node_heap := h;
            graph_heap := <[g' := {| nodes := ns; edges := es |}]> (graph_heap s) |})
    end.

(** The keys of [core/keras/constants.py], the pipeline, the model builder's
    result and the statistics measured on the representative data, none of
    which are part of the sources at hand. [core_runner] stands for the whole
    call at lines 268-274; [measure] gives the mean and the variance measured
    at the input of a batch-normalization node. *)
Variables GAMMA BETA MOVING_MEAN MOVING_VARIANCE : string.
Variable core_runner : St Store loc.
Variable build_model : list Node -> Model.
Variable measure : Model -> Node -> Tensor * Tensor.

(** Modelled from the spec: [quantized_model_builder_for_second_moment_correction]
    (not part of the sources at hand), step (2) of section 4.4: the
    semi-quantized model is built from the graph it is given; the graph is
    read, not changed. *)
Definition quantized_model_builder_for_second_moment_correction (g : loc)
    : St Store Model :=
  fun s => (Ok (build_model (graph_nodes s g)), s).

(** Step (4) of section 4.4 on one node: "overwrite the BN node's
    moving_mean/moving_variance parameters with the measured values; gamma
    and beta are left untouched". *)
Definition correct_node (model : Model) (n : Node) : Node :=
  if bool_decide (layer_class n = BatchNormalization) then
    let stats := measure model n in
    set_weights (<[MOVING_VARIANCE := stats.2]>
                   (<[MOVING_MEAN := stats.1]> (weights n))) n
  else n.

(** Modelled from the spec: [keras_apply_second_moment_correction] (not part
    of the sources at hand), steps (3) and (4) of section 4.4 on the graph it
    is given: every batch-normalization node object of that graph is updated
    in place. *)
Definition keras_apply_second_moment_correction (model : Model) (g : loc)
    : St Store unit :=
  fun s =>
    match graph_heap s !! g with
    | None => (Ok tt, s)
    | Some gr =>
        (Ok tt,
         {| node_heap := foldl (fun h l => alter (correct_node model) l h)
                               (node_heap s) (nodes gr);
            graph_heap := graph_heap s |})
    end.

(** [ValueSecondMomentTest.prepare_graph], lines 268-281. *)
Definition prepare_graph : St Store (loc * loc) :=
  let* tg := core_runner in
  let* graph_to_apply_second_moment := deepcopy tg in
  let* semi_quantized_model :=
    quantized_model_builder_for_second_moment_correction
      graph_to_apply_second_moment in
  keras_apply_second_moment_correction semi_quantized_model
    graph_to_apply_second_moment >>
  ret (tg, graph_to_apply_second_moment).

(** The same stage without the copy at line 275: the correction is applied
    to the graph [core_runner] returned. *)
Definition prepare_graph_in_place : St Store (loc * loc) :=
  let* tg := core_runner in
  let* semi_quantized_model :=
    quantized_model_builder_for_second_moment_correction tg in
  keras_apply_second_moment_correction semi_quantized_model tg >>
  ret (tg, tg).

(** The lookup at line 226, for a [find_node_by_name] given as [find]. *)
Definition bf_second_moment_node (find : Store -> loc -> string -> Found)
    (s : Store) (tg : loc) (node : Node) : Result loc :=
  py_getitem (find s tg (name node)) 0.

(** The body of the loop of [run_test], lines 225-244, for one node of the
    corrected graph. *)
Definition check_node (find : Store -> loc -> string -> Found)
    (s : Store) (tg : loc) (node : Node) : Result unit :=
  if bool_decide (layer_class node = BatchNormalization) then
    match bf_second_moment_node find s tg node with
    | Raise e => Raise e
    | Ok l0 =>
        match node_heap s !! l0 with
        | None => Raise (AttributeError "get_weights_by_keys")
        | Some node0 =>
            let gamma0 := get_weights_by_keys node0 GAMMA in
            let beta0 := get_weights_by_keys node0 BETA in
            let moving_mean0 := get_weights_by_keys node0 MOVING_MEAN in
            let moving_variance0 := get_weights_by_keys node0 MOVING_VARIANCE in
            let gamma1 := get_weights_by_keys node GAMMA in
            let beta1 := get_weights_by_keys node BETA in
            let moving_mean1 := get_weights_by_keys node MOVING_MEAN in
            let moving_variance1 := get_weights_by_keys node MOVING_VARIANCE in
            match assertTrue (bool_decide (gamma0 = gamma1)) with
            | Raise e => Raise e
            | Ok _ =>
            match assertTrue (bool_decide (beta0 = beta1)) with
            | Raise e => Raise e
            | Ok _ =>
            match assertFalse (bool_decide (moving_mean0 = moving_mean1)) with
            | Raise e => Raise e
            | Ok _ =>
                assertFalse (bool_decide (moving_variance0 = moving_variance1))
            end end end
        end
    end
  else Ok tt.

Fixpoint check_nodes (find : Store -> loc -> string -> Found)
    (s : Store) (tg : loc) (ns : list Node) : Result unit :=
  match ns with
  | [] => Ok tt
  | node :: ns' =>
      match check_node find s tg node with
      | Raise e => Raise e
      | Ok _ => check_nodes find s tg ns'
      end
  end.

(** [ValueSecondMomentTest.run_test] from the call of [prepare_graph] on. *)
Definition run_test (find : Store -> loc -> string -> Found) : St Store unit :=
  let* gs := prepare_graph in
  fun s => (check_nodes find s gs.1 (graph_nodes s gs.2), s).

End Graphs.

End SecondMoment.

(** ** Predicates used in the statements *)

Module Claims.
Import GPTQ.

(** A rounding type together with a quantizer config that does not have
    exactly the class the rounding type asks for. *)
Definition mismatch (r : RoundingValue) (q : QuantizerConfig) : Prop :=
  (r = Member SoftQuantizer ∧ qc_type q ≠ SoftQuantizerConfig) ∨
  (r = Member STE ∧ qc_type q ≠ GPTQQuantizerConfig).

(** [c] is a subclass of [d] other than [d] itself. *)
Definition strict_subclass (c d : PyClass) : bool :=
  issubclass c d && negb (bool_decide (c = d)).

(** The runtime after the logger has recorded [msg]. *)
Definition logged (msg : string) (rt : Runtime) : Runtime :=
  {| dd_heap := dd_heap rt; log := log rt ++ [msg] |}.

(** The quantizer config a constructor call works with. *)
Definition effective_config (kw : Kwargs) : QuantizerConfig :=
  default SoftQuantizerConfig_new (kw_quantizer_config kw).

(** A runtime in which the two class statements have been executed, and the
    class objects they made. *)
Definition boot : Result ClassEnv * Runtime := define_classes empty_runtime.

Definition env0 : ClassEnv :=
  {| v1_default_lsb := 1%positive; v2_default_lsb := 2%positive |}.

Definition rt0 : Runtime := boot.2.

(** The instance [GradientPTQConfig.__init__] leaves behind when it runs to
    its end on a new object of class [cls]. *)
Definition initialised (env : ClassEnv) (cls : ConfigClass) (n : option Z)
    (kw : Kwargs) : Config :=
  {| cfg_class := cls;
     n_iter := n;
     optimizer := kw_optimizer kw;
     optimizer_rest := kw_optimizer_rest kw;
     loss := kw_loss kw;
     log_function := kw_log_function kw;
     train_bias := kw_train_bias kw;
     quantization_parameters_learning := kw_quantization_parameters_learning kw;
     rounding_type := kw_rounding_type kw;
     lsb_change_per_bit_width :=
       default (v1_default_lsb env) (kw_lsb_change_per_bit_width kw);
     eps := kw_eps kw;
     use_jac_based_weights := kw_use_jac_based_weights kw;
     num_samples_for_loss := kw_num_samples_for_loss kw;
     norm_weights := kw_norm_weights kw;
     optimizer_quantization_parameter := kw_optimizer_quantization_parameter kw;
     optimizer_bias := kw_optimizer_bias kw;
     log_norm := kw_log_norm kw;
     weights_n_iter := kw_weights_n_iter kw;
     quantizer_config := Some (effective_config kw);
     n_epochs := None |}.

(** The epoch count of [c2] is exactly the quotient of the rounded iteration
    count by the length of the representative dataset. *)
Definition epochs_exact_quotient (n_iter n_ptq_iter : Z) (c2 : Config) : Prop :=
  ∃ e, n_epochs c2 = Some e ∧
       (inject_Z e == inject_Z (py_round n_iter) / inject_Z n_ptq_iter)%Q.

(** Stand-ins for the four keys of [gptq_constants.py]. *)
Definition k_n_batches : string := "n_batches".
Definition k_param_learning : string := "quantization_parameter_learning".
Definition k_n_epochs : string := "n_epochs".
Definition k_max_lsb : string := "max_lsbs_change_map".

(** The number of outputs of a node: the length of [output_shape] when it is
    a list, otherwise 1. *)
Definition number_of_outputs (o : Dispatcher.OutputShape) : nat :=
  match o with
  | Dispatcher.ShapeList shapes => length shapes
  | Dispatcher.ShapeTuple _ => 1%nat
  end.

(** A factory that builds a new quantizer object, described by a string, in
    a store of such objects. *)
Definition new_quantizer (descr : string) : St (gmap loc string) loc :=
  fun h => let l := fresh (dom h) in (Ok l, <[l := descr]> h).

(** Kernel attributes of a few Keras layer types. *)
Definition kernel_attributes (t : string) : list string :=
  if bool_decide (t = "Conv2D") then ["kernel"]
  else if bool_decide (t = "SeparableConv2D")
       then ["depthwise_kernel"; "pointwise_kernel"]
  else [].

(** A separable convolution with two outputs, both kinds of quantization
    enabled. *)
Definition sep_conv_node : Dispatcher.BaseNode :=
  {| Dispatcher.type := "SeparableConv2D";
     Dispatcher.output_shape :=
       Dispatcher.ShapeList [[None; Some 8; Some 8; Some 3];
                             [None; Some 8; Some 8; Some 3]];
     Dispatcher.is_weights_quantization_enabled := true;
     Dispatcher.is_activation_quantization_enabled := true |}.

(** The network of [ValueSecondMomentTest.create_networks] as a graph:
    Input, Conv2D, BatchNormalization, Activation. Tensors are one-entry
    tensors, given in hundredths: gamma 1, beta 0, moving mean 0, moving
    variance 1. *)
Definition plain_node (nm : string) (c : SecondMoment.LayerClass)
    : @SecondMoment.Node Z :=
  {| SecondMoment.name := nm;
     SecondMoment.layer_class := c;
     SecondMoment.weights := ∅ |}.

Definition bn_node : @SecondMoment.Node Z :=
  {| SecondMoment.name := "batch_normalization";
     SecondMoment.layer_class := SecondMoment.BatchNormalization;
     SecondMoment.weights :=
       <["gamma" := 100]> (<["beta" := 0]>
         (<["moving_mean" := 0]> (<["moving_variance" := 100]> ∅))) |}.

Definition test_store : @SecondMoment.Store Z :=
  {| SecondMoment.node_heap :=
       <[1%positive := plain_node "input_1" SecondMoment.InputLayer]>
         (<[2%positive := plain_node "conv2d" SecondMoment.Conv2D]>
            (<[3%positive := bn_node]>
               (<[4%positive := plain_node "activation" SecondMoment.Activation]> ∅)));
     SecondMoment.graph_heap :=
       {[ 1%positive :=
            {| SecondMoment.nodes := [1; 2; 3; 4]%positive;
               SecondMoment.edges := [(1, 2); (2, 3); (3, 4)]%positive |} ]} |}.

(** The pipeline has produced graph 1 of [test_store]. *)
Definition test_core_runner : St (@SecondMoment.Store Z) loc := ret 1%positive.

(** Statistics measured on inputs of mean 8.0 and standard deviation 0.5. *)
Definition test_measure (m : unit) (n : @SecondMoment.Node Z) : Z * Z :=
  (800, 25).

Definition test_run (find : @SecondMoment.Store Z -> loc -> string -> SecondMoment.Found)
    : St (@SecondMoment.Store Z) unit :=
  SecondMoment.run_test "gamma" "beta" "moving_mean" "moving_variance"
    test_core_runner (fun _ => tt) test_measure find.

Definition test_prepare_graph : St (@SecondMoment.Store Z) (loc * loc) :=
  SecondMoment.prepare_graph "moving_mean" "moving_variance"
    test_core_runner (fun _ => tt) test_measure.

End Claims.

(** ** [BaseSecondMomentTest.generate_inputs] *)

Module Fixture.

Section Inputs.

(** Arrays and the state of numpy's global random generator are opaque. *)
Context {Array Rng : Type}.

(** [np.random.normal(scale=0.5, loc=8.0, size=in_shape)] on the global
    generator, and the shapes [self.get_input_shapes()] of the base test
    class returns. *)
Variable np_random_normal : list Z -> Rng -> Array * Rng.
Variable get_input_shapes : list (list Z).

(** The two attributes of the test object the method uses; [inp] is [None]
    while the attribute has not been assigned. *)
Record TestObject := {
  i : Z;
  inp : option (list Array)
}.

(** [[np.random.normal(..., size=in_shape) for in_shape in shapes]]:
    one draw per shape, from left to right. *)
Fixpoint draw_all (shapes : list (list Z)) (rng : Rng) : list Array * Rng :=
  match shapes with
  | [] => ([], rng)
  | in_shape :: rest =>
      let '(a, rng1) := np_random_normal in_shape rng in
      let '(others, rng2) := draw_all rest rng1 in
      (a :: others, rng2)
  end.

Definition generate_inputs : St (TestObject * Rng) (list Array) :=
  fun st =>
    let self := st.1 in
    let rng := st.2 in
    let st1 :=
      if bool_decide (i self = 0) then
        let drawn := draw_all get_input_shapes rng in
        ({| i := i self + 1; inp := Some drawn.1 |}, drawn.2)
      else (self, rng) in
    match inp st1.1 with
    | Some xs => (Ok xs, st1)
    | None => (Raise (AttributeError "inp"), st1)
    end.

(** [k] calls in a row; the inputs of the last call are handed back. *)
Fixpoint generate_inputs_times (k : nat) (last : Result (list Array))
    (st : TestObject * Rng) : Result (list Array) * (TestObject * Rng) :=
  match k with
  | O => (last, st)
  | S k' =>
      let r := generate_inputs st in
      generate_inputs_times k' r.1 r.2
  end.

End Inputs.

End Fixture.

(** ** Further predicates and scenarios *)

Module Scenarios.
Import GPTQ Claims.

(** A logger that records the message and returns. *)
Definition Logger_error_log_only (msg : string) : M unit :=
  fun rt => (Ok tt, logged msg rt).

(** The instance [GradientPTQConfigV2.__init__] leaves behind when it runs
    to its end. *)
Definition initialised_v2 (env : ClassEnv) (ne : Z) (kw : Kwargs) : Config :=
  set_n_epochs ne
    (initialised env GradientPTQConfigV2 None
       (with_mutable_args
          (Some (default (v2_default_lsb env) (kw_lsb_change_per_bit_width kw)))
          (Some (effective_config kw)) kw)).

(** The combinations of rounding type, quantizer config and learning flag
    that pass both checks of the initializer. *)
Definition accepted (kw : Kwargs) : Prop :=
  (kw_rounding_type kw = Member SoftQuantizer ∧
   qc_type (effective_config kw) = SoftQuantizerConfig) ∨
  (kw_rounding_type kw ≠ Member SoftQuantizer ∧
   qc_type (effective_config kw) = GPTQQuantizerConfig ∧
   ¬ (kw_quantization_parameters_learning kw = true ∧
      kw_rounding_type kw = Member STE)).

(** A graph object all of whose node references are distinct live objects. *)
Definition wf_graph {Tensor : Type} (s : @SecondMoment.Store Tensor)
    (g : loc) (gr : SecondMoment.Graph) : Prop :=
  SecondMoment.graph_heap s !! g = Some gr ∧
  NoDup (SecondMoment.nodes gr) ∧
  ∀ l, l ∈ SecondMoment.nodes gr → is_Some (SecondMoment.node_heap s !! l).

(** A lookup that hands the matching nodes back as a list, in the order of
    the graph's nodes. *)
Definition list_lookup {Tensor : Type} (s : @SecondMoment.Store Tensor)
    (g : loc) (nm : string) : SecondMoment.Found :=
  SecondMoment.FoundList (SecondMoment.named s g nm).


(** The input shape of the second-moment tests, a toy generator whose state
    counts the draws, and a fresh test object. *)
Definition test_shapes : list (list Z) := [[128; 32; 32; 1]].

Definition counting_normal (shape : list Z) (rng : nat) : (nat * list Z) * nat :=
  ((rng, shape), S rng).

Definition fresh_test_object : @Fixture.TestObject (nat * list Z) :=
  {| Fixture.i := 0; Fixture.inp := None |}.

End Scenarios.

(** ** Properties of the configuration classes *)

Section GPTQ_Facts.
Import GPTQ Claims.

Lemma boot_env : boot.1 = Ok env0.
Proof. vm_compute. reflexivity. Qed.

Lemma verify_soft (q : QuantizerConfig) :
  _verify_quantizer_config q (Member SoftQuantizer)
  = bool_decide (qc_type q = SoftQuantizerConfig).
Proof. reflexivity. Qed.

Lemma verify_not_soft (q : QuantizerConfig) (r : RoundingValue) :
  r ≠ Member SoftQuantizer →
  _verify_quantizer_config q r = bool_decide (qc_type q = GPTQQuantizerConfig).
Proof.
  intros Hr. unfold _verify_quantizer_config.
  rewrite bool_decide_eq_false_2; [reflexivity | exact Hr].
Qed.

Lemma verify_mismatch (r : RoundingValue) (q : QuantizerConfig) :
  mismatch r q → _verify_quantizer_config q r = false.
Proof.
  intros [[-> Hq] | [-> Hq]].
  - rewrite verify_soft. by apply bool_decide_eq_false_2.
  - rewrite verify_not_soft; [| discriminate]. by apply bool_decide_eq_false_2.
Qed.

(** What the constructor does with the logger of the spec, case by case. *)
Lemma init_param_learning env cls n kw rt :
  kw_quantization_parameters_learning kw = true →
  kw_rounding_type kw = Member STE →
  GradientPTQConfig__init__ Logger_error_spec env cls n kw rt
  = (Raise (ConfigurationError msg_param_learning),
     logged msg_param_learning rt).
Proof.
  intros Hq Hr. unfold GradientPTQConfig__init__, bind.
  rewrite Hq, Hr. reflexivity.
Qed.

Lemma init_not_suitable env cls n kw rt :
  _verify_quantizer_config (effective_config kw) (kw_rounding_type kw) = false →
  ∃ msg,
    GradientPTQConfig__init__ Logger_error_spec env cls n kw rt
    = (Raise (ConfigurationError msg), logged msg rt).
Proof.
  intros Hv. unfold GradientPTQConfig__init__, bind.
  fold (effective_config kw). rewrite Hv.
  destruct (kw_quantization_parameters_learning kw
            && bool_decide (kw_rounding_type kw = Member STE)); simpl;
    eexists; reflexivity.
Qed.

(** Whatever the logger does, a config that fails the check is never stored. *)
Lemma init_mismatch_unset lg env cls n kw rt c rt' :
  _verify_quantizer_config (effective_config kw) (kw_rounding_type kw) = false →
  GradientPTQConfig__init__ lg env cls n kw rt = (Ok c, rt') →
  quantizer_config c = None.
Proof.
  intros Hv. unfold GradientPTQConfig__init__, bind.
  fold (effective_config kw). rewrite Hv.
  destruct (if _ && _ then lg _ else ret tt) as [[[]|e] rt1]; [|discriminate].
  destruct (lg _ rt1) as [[[]|e] rt2]; [|discriminate].
  unfold ret. intros [= <- _]. reflexivity.
Qed.

Lemma effective_config_resolved lsb kw :
  effective_config
    (with_mutable_args lsb (Some (effective_config kw)) kw)
  = effective_config kw.
Proof. reflexivity. Qed.

(** C1. Whenever the rounding type and the class of the quantizer config do
    not match (SoftQuantizer without exactly a SoftQuantizerConfig, STE
    without exactly a GPTQQuantizerConfig), constructing a GradientPTQConfig
    (or a GradientPTQConfigV2, through the same initializer) logs an error
    and raises a ConfigurationError carrying it: no instance is returned.
    Independently of what the logger does, the initializer never stores the
    mismatched quantizer config in the instance. *)
Theorem mismatched_quantizer_config_rejected
    (env : ClassEnv) (cls : ConfigClass) (n : option Z) (n_epochs : Z)
    (kw : Kwargs) (rt : Runtime) :
  mismatch (kw_rounding_type kw) (effective_config kw) →
  (∃ msg,
     GradientPTQConfig__init__ Logger_error_spec env cls n kw rt
     = (Raise (ConfigurationError msg), logged msg rt)) ∧
  (∃ msg,
     GradientPTQConfigV2__init__ Logger_error_spec env n_epochs kw rt
     = (Raise (ConfigurationError msg), logged msg rt)) ∧
  (∀ lg c rt',
     GradientPTQConfig__init__ lg env cls n kw rt = (Ok c, rt') →
     quantizer_config c = None).
Proof.
  intros Hm. pose proof (verify_mismatch _ _ Hm) as Hv.
  split; [|split].
  - by apply init_not_suitable.
  - unfold GradientPTQConfigV2__init__. fold (effective_config kw).
    destruct (init_not_suitable env GradientPTQConfigV2 None
                (with_mutable_args
                   (Some (default (v2_default_lsb env)
                            (kw_lsb_change_per_bit_width kw)))
                   (Some (effective_config kw)) kw) rt) as [msg Hmsg].
    { rewrite effective_config_resolved. exact Hv. }
    exists msg. unfold bind at 1. rewrite Hmsg. reflexivity.
  - intros lg c rt'. by apply init_mismatch_unset.
Qed.

Lemma mismatched_quantizer_config_rejected_witness :
  let kw := with_rounding (Member STE) false None (default_kwargs PyNone) in
  mismatch (kw_rounding_type kw) (effective_config kw) ∧
  ∃ msg,
    GradientPTQConfig__init__ Logger_error_spec env0 GradientPTQConfig
      (Some 500) kw rt0
    = (Raise (ConfigurationError msg), logged msg rt0).
Proof.
  assert (Hm : mismatch (Member STE) SoftQuantizerConfig_new).
  { right. split; [reflexivity | discriminate]. }
  split; [exact Hm |].
  exact (proj1 (mismatched_quantizer_config_rejected env0 GradientPTQConfig
                  (Some 500) 0
                  (with_rounding (Member STE) false None (default_kwargs PyNone))
                  rt0 Hm)).
Defined.

(** C2. Constructing a GradientPTQConfig or a GradientPTQConfigV2 with
    quantization_parameters_learning set and rounding type STE is rejected
    at construction: the error "Quantization parameters learning is not
    supported with STE rounding." is logged and raised, and no instance is
    returned. *)
Theorem param_learning_with_STE_rejected
    (env : ClassEnv) (n : option Z) (n_epochs : Z) (kw : Kwargs) (rt : Runtime) :
  kw_quantization_parameters_learning kw = true →
  kw_rounding_type kw = Member STE →
  GradientPTQConfig__init__ Logger_error_spec env GradientPTQConfig n kw rt
  = (Raise (ConfigurationError msg_param_learning),
     logged msg_param_learning rt) ∧
  GradientPTQConfigV2__init__ Logger_error_spec env n_epochs kw rt
  = (Raise (ConfigurationError msg_param_learning),
     logged msg_param_learning rt).
Proof.
  intros Hq Hr. split.
  - by apply init_param_learning.
  - unfold GradientPTQConfigV2__init__, bind at 1.
    rewrite init_param_learning; [reflexivity | exact Hq | exact Hr].
Qed.

Lemma param_learning_with_STE_rejected_witness :
  let kw := with_rounding (Member STE) true (Some GPTQQuantizerConfig_new)
              (default_kwargs PyNone) in
  GradientPTQConfig__init__ Logger_error_spec env0 GradientPTQConfig
    (Some 500) kw rt0
  = (Raise (ConfigurationError msg_param_learning),
     logged msg_param_learning rt0) ∧
  GradientPTQConfigV2__init__ Logger_error_spec env0 50 kw rt0
  = (Raise (ConfigurationError msg_param_learning),
     logged msg_param_learning rt0).
Proof.
  exact (param_learning_with_STE_rejected env0 (Some 500) 50
           (with_rounding (Member STE) true (Some GPTQQuantizerConfig_new)
              (default_kwargs PyNone))
           rt0 eq_refl eq_refl).
Defined.

(** C6. The check compares run-time classes for equality. For STE it
    succeeds exactly when the class of the quantizer config is
    GPTQQuantizerConfig itself, for SoftQuantizer exactly when it is
    SoftQuantizerConfig itself; an instance of a strict subclass of the
    expected class is an instance of it and is rejected all the same. *)
Theorem verify_quantizer_config_exact_type (q : QuantizerConfig) :
  (_verify_quantizer_config q (Member STE) = true
   ↔ qc_type q = GPTQQuantizerConfig) ∧
  (_verify_quantizer_config q (Member SoftQuantizer) = true
   ↔ qc_type q = SoftQuantizerConfig) ∧
  (strict_subclass (qc_type q) GPTQQuantizerConfig = true →
   isinstance q GPTQQuantizerConfig = true ∧
   _verify_quantizer_config q (Member STE) = false) ∧
  (strict_subclass (qc_type q) SoftQuantizerConfig = true →
   isinstance q SoftQuantizerConfig = true ∧
   _verify_quantizer_config q (Member SoftQuantizer) = false).
Proof.
  split; [|split; [|split]].
  - rewrite verify_not_soft; [| discriminate]. apply bool_decide_eq_true.
  - rewrite verify_soft. apply bool_decide_eq_true.
  - unfold strict_subclass, isinstance. intros [Hs Hne]%andb_true_iff.
    split; [exact Hs |].
    rewrite verify_not_soft; [| discriminate].
    apply bool_decide_eq_false_2. intros Heq.
    rewrite Heq in Hne. discriminate.
  - unfold strict_subclass, isinstance. intros [Hs Hne]%andb_true_iff.
    split; [exact Hs |].
    rewrite verify_soft.
    apply bool_decide_eq_false_2. intros Heq.
    rewrite Heq in Hne. discriminate.
Qed.

Lemma verify_quantizer_config_exact_type_witness :
  (isinstance SoftQuantizerConfig_new GPTQQuantizerConfig = true ∧
   _verify_quantizer_config SoftQuantizerConfig_new (Member STE) = false) ∧
  (let q := {| qc_type := UserSubclass "MySoftConfig" SoftQuantizerConfig;
               n_batches := None |} in
   isinstance q SoftQuantizerConfig = true ∧
   _verify_quantizer_config q (Member SoftQuantizer) = false).
Proof.
  split.
  - exact (proj1 (proj2 (proj2
             (verify_quantizer_config_exact_type SoftQuantizerConfig_new)))
             eq_refl).
  - exact (proj2 (proj2 (proj2
             (verify_quantizer_config_exact_type
                {| qc_type := UserSubclass "MySoftConfig" SoftQuantizerConfig;
                   n_batches := None |})))
             eq_refl).
Defined.

End GPTQ_Facts.

(** ** True division of ints below 2^53 *)

Section Division_Facts.
Import GPTQ.
Local Open Scope Z_scope.

Lemma pow2_pos (f : Z) : 0 <= f -> 0 < 2 ^ f.
Proof. intros Hf. apply Z.pow_pos_nonneg; lia. Qed.

(** Rounding the scaled quotient to the nearest integer and truncating the
    result gives the floor of the quotient, as long as the dividend is below
    2^53: the rounding never reaches the next integer. *)
Lemma round_then_truncate (A B f : Z) :
  0 < A < 2 ^ 53 -> 0 < B -> 0 <= f ->
  2 ^ 52 <= (A * 2 ^ f) / B ->
  round_half_even (A * 2 ^ f) B / 2 ^ f = A / B.
Proof.
  intros HA HB Hf Hq.
  pose proof (pow2_pos f Hf) as HP.
  set (P := 2 ^ f) in *.
  assert (Hqk : (A * P) / B / P = A / B).
  { rewrite Z.div_div by lia. rewrite Z.div_mul_cancel_r by lia. reflexivity. }
  unfold round_half_even.
  set (q := (A * P) / B) in *.
  set (r := (A * P) mod B).
  destruct ((B <? 2 * r) || ((B =? 2 * r) && Z.odd q)) eqn:Hup;
    [| exact Hqk].
  assert (Hr2 : B <= 2 * r).
  { apply orb_true_iff in Hup as [Hlt | Heq].
    - apply Z.ltb_lt in Hlt. lia.
    - apply andb_true_iff in Heq as [Heq _]. apply Z.eqb_eq in Heq. lia. }
  pose proof (Z.div_mod (A * P) B ltac:(lia)) as HN. fold q r in HN.
  pose proof (Z.mod_pos_bound (A * P) B HB) as Hr. fold r in Hr.
  pose proof (Z.div_mod A B ltac:(lia)) as HAk.
  pose proof (Z.mod_pos_bound A B HB) as Ht.
  set (k := A / B) in *. set (t := A mod B) in *.
  pose proof (Z.mul_div_le q P HP) as Hlo.
  pose proof (Z.mul_succ_div_gt q P HP) as Hhi.
  rewrite Hqk in Hlo, Hhi.
  assert (Hne : q + 1 <> (k + 1) * P).
  { intros Heq.
    assert (H1 : P * (B - t) = B - r) by nia.
    assert (H2 : P <= B - r) by nia.
    assert (H3 : 2 * P <= B) by lia.
    assert (H4 : q * B <= A * P) by lia.
    assert (H5 : 2 ^ 52 * B <= A * P) by nia.
    assert (H6 : A * P < 2 ^ 53 * P) by nia.
    nia. }
  symmetry. apply (Z.div_unique (q + 1) P k (q + 1 - k * P)); lia.
Qed.

Lemma log2_small (A : Z) : 0 < A < 2 ^ 53 -> 0 <= Z.log2 A <= 52.
Proof.
  intros HA. split; [apply Z.log2_nonneg |].
  assert (Z.log2 A < 53); [| lia].
  apply Z.log2_lt_pow2; lia.
Qed.

(** For operands below 2^53 the exponent is not positive, is not the
    subnormal one, and leaves 53 bits in the scaled quotient. *)
Lemma exponent_small (A B : Z) :
  0 < A < 2 ^ 53 -> 0 < B < 2 ^ 53 ->
  binary64_exponent A B <= 0 /\
  2 ^ 52 <= (A * 2 ^ (- binary64_exponent A B)) / B.
Proof.
  intros HA HB.
  pose proof (log2_small A HA) as Hla. pose proof (log2_small B HB) as Hlb.
  pose proof (Z.log2_spec A ltac:(lia)) as [HAlo _].
  pose proof (Z.log2_spec B ltac:(lia)) as [_ HBhi].
  unfold binary64_exponent.
  set (la := Z.log2 A) in *. set (lb := Z.log2 B) in *.
  set (e0 := la - lb - 53).
  assert (He0 : -105 <= e0 <= -1) by (unfold e0; lia).
  assert (Hfs : floor_scaled A B e0 = (A * 2 ^ (- e0)) / B).
  { unfold floor_scaled. destruct (Z.leb_spec 0 e0); [lia | reflexivity]. }
  assert (Hscale : 2 ^ 52 * B < A * 2 ^ (- e0)).
  { assert (H1 : 2 ^ la * 2 ^ (- e0) = 2 ^ 52 * 2 ^ Z.succ lb).
    { rewrite <- !Z.pow_add_r by lia. f_equal. unfold e0. lia. }
    pose proof (pow2_pos (- e0) ltac:(lia)) as HP.
    assert (H2 : 2 ^ la * 2 ^ (- e0) <= A * 2 ^ (- e0)) by nia.
    nia. }
  rewrite Hfs.
  destruct (Z.leb_spec (2 ^ 53) ((A * 2 ^ (- e0)) / B)) as [Hbig | Hsmall].
  - rewrite Z.max_l by lia. split; [lia |].
    replace (- (e0 + 1)) with (- e0 - 1) by lia.
    assert (Hhalf : 2 ^ (- e0) = 2 * 2 ^ (- e0 - 1)).
    { replace (- e0) with (Z.succ (- e0 - 1)) at 1 by lia.
      apply Z.pow_succ_r. lia. }
    pose proof (Z.mul_div_le (A * 2 ^ (- e0)) B ltac:(lia)) as Hle.
    apply Z.div_le_lower_bound; [lia |]. nia.
  - rewrite Z.max_l by lia. split; [lia |].
    apply Z.div_le_lower_bound; lia.
Qed.

Lemma py_int_scaled (m e : Z) :
  0 <= m -> e <= 0 -> py_int (scaled_to_Q m e) = m / 2 ^ (- e).
Proof.
  intros Hm He. unfold scaled_to_Q, py_int.
  destruct (Z.leb_spec 0 e) as [H0 | Hneg].
  - assert (e = 0) as -> by lia. simpl.
    rewrite Z.mul_1_r, Z.quot_1_r, Z.div_1_r. reflexivity.
  - simpl. pose proof (pow2_pos (- e) ltac:(lia)) as HP.
    rewrite Z2Pos.id by exact HP.
    apply Z.quot_div_nonneg; lia.
Qed.

(** Dividing a non-negative int by a positive one, both below 2^53, and
    truncating the double gives the floor of the exact quotient. *)
Lemma py_int_truediv_small (a b : Z) :
  0 <= a < 2 ^ 53 -> 0 < b < 2 ^ 53 ->
  exists q, py_truediv a b = Ok q /\ py_int q = a / b.
Proof.
  intros Ha Hb. unfold py_truediv.
  rewrite bool_decide_eq_false_2 by lia.
  destruct (decide (a = 0)) as [-> | Hne].
  - rewrite bool_decide_eq_true_2 by reflexivity.
    eexists. split; [reflexivity |]. reflexivity.
  - rewrite bool_decide_eq_false_2 by exact Hne.
    rewrite (Z.abs_eq a), (Z.abs_eq b) by lia.
    rewrite (Z.sgn_pos a), (Z.sgn_pos b) by lia.
    destruct (exponent_small a b ltac:(lia) Hb) as [He Hq].
    set (e := binary64_exponent a b) in *.
    assert (Hsig : binary64_significand a b e
                   = round_half_even (a * 2 ^ (- e)) b).
    { unfold binary64_significand.
      destruct (Z.leb_spec 0 e) as [H0 | Hneg]; [| reflexivity].
      assert (e = 0) as -> by lia. simpl. by rewrite !Z.mul_1_r. }
    pose proof (round_then_truncate a b (- e) ltac:(lia) ltac:(lia)
                  ltac:(lia) Hq) as Hround.
    pose proof (pow2_pos (- e) ltac:(lia)) as HP.
    assert (Hq0 : 0 <= (a * 2 ^ (- e)) / b) by (apply Z.div_pos; nia).
    assert (Hm : 0 <= binary64_significand a b e
                 <= (a * 2 ^ (- e)) / b + 1).
    { rewrite Hsig. unfold round_half_even.
      destruct ((b <? _) || _); lia. }
    assert (Hover : (0 <=? e)
                    && (2 ^ 1024 <=? binary64_significand a b e * 2 ^ e)
                    = false).
    { destruct (Z.leb_spec 0 e) as [H0 | Hneg]; [| reflexivity].
      assert (e = 0) as Heq by lia. rewrite Heq in *.
      change (2 ^ (- 0)) with 1 in *. change (2 ^ 0) with 1.
      apply Z.leb_gt.
      assert (Hle : a * 1 / b <= a).
      { rewrite Z.mul_1_r. apply Z.div_le_upper_bound; nia. }
      assert (Hpow : 2 ^ 54 <= 2 ^ 1024) by (apply Z.pow_le_mono_r; lia).
      lia. }
    rewrite Hover. eexists. split; [reflexivity |].
    rewrite !Z.mul_1_l. rewrite py_int_scaled by lia.
    rewrite Hsig. exact Hround.
Qed.

(** The model at the first ints a double cannot hold, and beyond the
    largest double. *)
Example py_truediv_rounds :
  (exists q, py_truediv (2 ^ 53 + 1) 1 = Ok q /\ py_int q = 2 ^ 53) /\
  (exists q, py_truediv (2 ^ 54 - 1) 1 = Ok q /\ py_int q = 2 ^ 54) /\
  py_truediv (10 ^ 400) 1
  = Raise (OverflowError "integer division result too large for a float").
Proof.
  split; [| split].
  - eexists. split; vm_compute; reflexivity.
  - eexists. split; vm_compute; reflexivity.
  - vm_compute. reflexivity.
Qed.

End Division_Facts.

(** ** Conversion from the iteration-based to the epoch-based configuration *)

Section GPTQ_Conversion.
Import GPTQ Claims.

(** A successful run of the initializer, inverted. *)
Lemma init_ok_inv env cls n kw rt c rt1 :
  GradientPTQConfig__init__ Logger_error_spec env cls n kw rt = (Ok c, rt1) →
  rt1 = rt ∧
  kw_quantization_parameters_learning kw
    && bool_decide (kw_rounding_type kw = Member STE) = false ∧
  _verify_quantizer_config (effective_config kw) (kw_rounding_type kw) = true ∧
  c = initialised env cls n kw.
Proof.
  unfold GradientPTQConfig__init__, bind. fold (effective_config kw).
  destruct (kw_quantization_parameters_learning kw
            && bool_decide (kw_rounding_type kw = Member STE)); simpl;
    [discriminate |].
  destruct (_verify_quantizer_config (effective_config kw) (kw_rounding_type kw));
    simpl; [| discriminate].
  unfold ret. intros [= <- <-]. repeat split; reflexivity.
Qed.

Lemma init_ok env cls n kw rt :
  kw_quantization_parameters_learning kw
    && bool_decide (kw_rounding_type kw = Member STE) = false →
  _verify_quantizer_config (effective_config kw) (kw_rounding_type kw) = true →
  GradientPTQConfig__init__ Logger_error_spec env cls n kw rt
  = (Ok (initialised env cls n kw), rt).
Proof.
  intros Hq Hv. unfold GradientPTQConfig__init__, bind.
  fold (effective_config kw). rewrite Hq, Hv. reflexivity.
Qed.

Lemma initV2_ok_inv env ne kw rt c rt1 :
  GradientPTQConfigV2__init__ Logger_error_spec env ne kw rt = (Ok c, rt1) →
  rt1 = rt ∧
  _verify_quantizer_config (effective_config kw) (kw_rounding_type kw) = true ∧
  c = set_n_epochs ne
        (initialised env GradientPTQConfigV2 None
           (with_mutable_args
              (Some (default (v2_default_lsb env)
                       (kw_lsb_change_per_bit_width kw)))
              (Some (effective_config kw)) kw)).
Proof.
  unfold GradientPTQConfigV2__init__. fold (effective_config kw).
  unfold bind at 1.
  destruct (GradientPTQConfig__init__ _ _ _ _ _ rt) as [[c'|e] rt2] eqn:Hi;
    [| discriminate].
  apply init_ok_inv in Hi as (-> & _ & Hv & ->).
  unfold ret. intros [= <- <-]. repeat split. exact Hv.
Qed.

(** C3, as stated, fails: with 505 iterations and a representative dataset
    of length 10 the epoch count is 50, not the quotient 505/10. *)
Lemma from_v1_not_exact_quotient :
  ∃ c1 c2,
    GradientPTQConfig__init__ Logger_error_spec env0 GradientPTQConfig
      (Some 505) (default_kwargs PyNone) rt0 = (Ok c1, rt0) ∧
    from_v1 Logger_error_spec env0 10 c1 rt0 = (Ok c2, rt0) ∧
    n_epochs c2 = Some 50 ∧
    ¬ epochs_exact_quotient 505 10 c2.
Proof.
  eexists. eexists.
  split; [vm_compute; reflexivity |].
  split; [vm_compute; reflexivity |].
  split; [reflexivity |].
  intros (e & He & Hq). simpl in He. injection He as <-.
  vm_compute in Hq. discriminate Hq.
Qed.

(** C3, amended. For a configuration built by GradientPTQConfig with an int
    n_iter, 0 <= n_iter < 2^53, and 0 < n_ptq_iter < 2^53, from_v1 returns a
    GradientPTQConfigV2 whose n_epochs is int(round(n_iter) / n_ptq_iter),
    the quotient truncated toward zero; when n_ptq_iter divides n_iter this
    is the quotient itself, as for n_iter = 500 and n_ptq_iter = 10, which
    give 50. *)
Theorem from_v1_epochs_truncated
    (env : ClassEnv) (n n_ptq_iter : Z) (kw : Kwargs)
    (rt rt1 rt' : Runtime) (c1 : Config) :
  GradientPTQConfig__init__ Logger_error_spec env GradientPTQConfig
    (Some n) kw rt = (Ok c1, rt1) →
  (0 <= n < 2 ^ 53)%Z →
  (0 < n_ptq_iter < 2 ^ 53)%Z →
  ∃ c2,
    from_v1 Logger_error_spec env n_ptq_iter c1 rt' = (Ok c2, rt') ∧
    cfg_class c2 = GradientPTQConfigV2 ∧
    n_iter c2 = None ∧
    n_epochs c2 = Some (Z.quot (py_round n) n_ptq_iter) ∧
    ((n_ptq_iter | n) → epochs_exact_quotient n n_ptq_iter c2).
Proof.
  intros Hi Hn Hp. apply init_ok_inv in Hi as (_ & Hq & Hv & ->).
  destruct (py_int_truediv_small n n_ptq_iter Hn Hp) as (q & Hdiv & Hint).
  assert (Hnz : n_ptq_iter ≠ 0) by lia.
  unfold from_v1. unfold bind at 1. simpl.
  unfold bind at 1, lift_result. unfold py_round. rewrite Hdiv, Hint.
  rewrite <- Z.quot_div_nonneg by lia.
  unfold GradientPTQConfigV2__init__, bind.
  rewrite init_ok; [| exact Hq | exact Hv].
  eexists. split; [reflexivity |].
  repeat split.
  intros [k ->]. exists k. split.
  - simpl. rewrite Z.quot_mul by exact Hnz. reflexivity.
  - unfold py_round. rewrite inject_Z_mult.
    field. intros H0. apply Hnz.
    unfold Qeq in H0. simpl in H0. lia.
Qed.

Lemma from_v1_epochs_truncated_witness :
  ∃ c2,
    from_v1 Logger_error_spec env0 10
      (initialised env0 GradientPTQConfig (Some 500) (default_kwargs PyNone))
      rt0 = (Ok c2, rt0) ∧
    n_epochs c2 = Some 50 ∧
    epochs_exact_quotient 500 10 c2.
Proof.
  destruct (from_v1_epochs_truncated env0 500 10 (default_kwargs PyNone)
              rt0 rt0 rt0
              (initialised env0 GradientPTQConfig (Some 500)
                 (default_kwargs PyNone))
              eq_refl) as (c2 & Hf & _ & _ & He & Hx).
  - lia.
  - lia.
  - exists c2. split; [exact Hf |]. split; [exact He |].
    apply Hx. exists 50. reflexivity.
Defined.

End GPTQ_Conversion.

(** ** Extra quantizer parameters and the shared default dictionary *)

Section GPTQ_Parameters.
Import GPTQ Claims.

(** C5, as stated, fails: an instance of GradientPTQConfig has no method
    get_extended_quantizer_parametes; the call raises AttributeError. *)
Lemma v1_has_no_extended_quantizer_parameters :
  ∃ c,
    GradientPTQConfig__init__ Logger_error_spec env0 GradientPTQConfig
      (Some 500) (default_kwargs PyNone) rt0 = (Ok c, rt0) ∧
    has_method GradientPTQConfig "get_extended_quantizer_parametes" = false ∧
    get_extended_quantizer_parametes
      k_n_batches k_param_learning k_n_epochs k_max_lsb c
    = Raise (AttributeError "get_extended_quantizer_parametes").
Proof.
  eexists. split; [vm_compute; reflexivity |].
  split; reflexivity.
Qed.

(** C5, amended. Only GradientPTQConfigV2 defines
    get_extended_quantizer_parametes. On an instance built by
    GradientPTQConfigV2 it returns, for rounding type SoftQuantizer, the
    dictionary with exactly the keys for n_batches, quantization-parameters
    learning and n_epochs (holding the quantizer config's n_batches, the
    learning flag and the epoch count); for STE, the dictionary with exactly
    the max-LSB key, holding the lsb_change_per_bit_width object; for any
    other rounding type, the empty dictionary. *)
Theorem extended_quantizer_parameters_v2
    (N_BATCHES_STR QUANT_PARAM_LEARNING_STR N_EPOCHS_STR MAX_LSB_STR : string)
    (env : ClassEnv) (ne : Z) (kw : Kwargs) (rt rt' : Runtime) (c : Config) :
  GradientPTQConfigV2__init__ Logger_error_spec env ne kw rt = (Ok c, rt') →
  has_method GradientPTQConfig "get_extended_quantizer_parametes" = false ∧
  has_method (cfg_class c) "get_extended_quantizer_parametes" = true ∧
  match rounding_type c with
  | Member SoftQuantizer =>
      ∃ qc d,
        quantizer_config c = Some qc ∧
        get_extended_quantizer_parametes
          N_BATCHES_STR QUANT_PARAM_LEARNING_STR N_EPOCHS_STR MAX_LSB_STR c
        = Ok d ∧
        d = <[N_EPOCHS_STR := VInt ne]>
              (<[QUANT_PARAM_LEARNING_STR :=
                   VBool (quantization_parameters_learning c)]>
                 (<[N_BATCHES_STR := opt_int (n_batches qc)]> ∅)) ∧
        dom d = ({[N_BATCHES_STR; QUANT_PARAM_LEARNING_STR; N_EPOCHS_STR]}
                 : gset string)
  | Member STE =>
      ∃ d,
        get_extended_quantizer_parametes
          N_BATCHES_STR QUANT_PARAM_LEARNING_STR N_EPOCHS_STR MAX_LSB_STR c
        = Ok d ∧
        d = {[MAX_LSB_STR := VRef (lsb_change_per_bit_width c)]} ∧
        dom d = ({[MAX_LSB_STR]} : gset string)
  | NonMember _ =>
      get_extended_quantizer_parametes
        N_BATCHES_STR QUANT_PARAM_LEARNING_STR N_EPOCHS_STR MAX_LSB_STR c
      = Ok ∅
  end.
Proof.
  intros Hi. apply initV2_ok_inv in Hi as (_ & _ & ->).
  split; [reflexivity |]. split; [reflexivity |].
  unfold get_extended_quantizer_parametes,
    get_extended_quantizer_parametes_body. simpl.
  destruct (kw_rounding_type kw) as [[|]|v]; simpl.
  - eexists. split; [reflexivity |]. split; [reflexivity |].
    rewrite insert_empty. apply dom_singleton_L.
  - eexists. eexists. split; [reflexivity |]. split; [reflexivity |].
    split; [reflexivity |].
    rewrite !dom_insert_L, dom_empty_L.
    apply set_eq. intros x.
    rewrite !elem_of_union, !elem_of_singleton, elem_of_empty. tauto.
  - reflexivity.
Qed.

Lemma extended_quantizer_parameters_v2_witness :
  ∃ c d,
    GradientPTQConfigV2__init__ Logger_error_spec env0 50
      (default_kwargs PyNone) rt0 = (Ok c, rt0) ∧
    get_extended_quantizer_parametes
      k_n_batches k_param_learning k_n_epochs k_max_lsb c = Ok d ∧
    dom d = ({[k_n_batches; k_param_learning; k_n_epochs]} : gset string).
Proof.
  pose proof (extended_quantizer_parameters_v2
                k_n_batches k_param_learning k_n_epochs k_max_lsb
                env0 50 (default_kwargs PyNone) rt0 rt0 _ eq_refl)
    as (_ & _ & qc & d & _ & Hd & _ & Hdom).
  eexists. exists d. split; [reflexivity |]. split; [exact Hd | exact Hdom].
Defined.

(** The [lsb_change_per_bit_width] reference of a constructed instance,
    whatever the logger does. *)
Lemma init_lsb lg env cls n kw rt c rt' :
  GradientPTQConfig__init__ lg env cls n kw rt = (Ok c, rt') →
  lsb_change_per_bit_width c
  = default (v1_default_lsb env) (kw_lsb_change_per_bit_width kw).
Proof.
  unfold GradientPTQConfig__init__, bind.
  destruct (if _ && _ then lg _ else ret tt) as [[[]|e] rt1]; [|discriminate].
  destruct (_verify_quantizer_config _ _).
  - unfold ret. intros [= <- _]. reflexivity.
  - destruct (lg _ rt1) as [[[]|e] rt2]; [|discriminate].
    unfold ret. intros [= <- _]. reflexivity.
Qed.

Lemma initV2_lsb lg env ne kw rt c rt' :
  GradientPTQConfigV2__init__ lg env ne kw rt = (Ok c, rt') →
  lsb_change_per_bit_width c
  = default (v2_default_lsb env) (kw_lsb_change_per_bit_width kw).
Proof.
  unfold GradientPTQConfigV2__init__. unfold bind at 1.
  destruct (GradientPTQConfig__init__ _ _ _ _ _ rt) as [[c'|e] rt2] eqn:Hi;
    [| discriminate].
  apply init_lsb in Hi. unfold ret. intros [= <- _]. exact Hi.
Qed.

(** A write through a reference is read back through any equal reference. *)
Lemma dd_get_setitem (l : loc) (key v : Z) (rt : Runtime) :
  is_Some (dd_heap rt !! l) →
  dd_get l key (dd_setitem l key v rt).2 = Some v.
Proof.
  intros [d Hd]. unfold dd_get, dd_setitem. simpl.
  rewrite lookup_alter_eq, Hd. simpl.
  unfold DefaultDict_get, DefaultDict_setitem. simpl.
  rewrite lookup_insert_eq. reflexivity.
Qed.

Lemma define_classes_objects rt env rt1 :
  define_classes rt = (Ok env, rt1) →
  dd_heap rt1 !! v1_default_lsb env = Some DefaultDict_default ∧
  dd_heap rt1 !! v2_default_lsb env = Some DefaultDict_default ∧
  (v1_default_lsb env ≠ v2_default_lsb env) ∧
  (v1_default_lsb env ∉ dom (dd_heap rt)) ∧
  (v2_default_lsb env ∉ dom (dd_heap rt)).
Proof.
  unfold define_classes, bind, alloc_dd, ret. simpl. intros [= <- <-]. simpl.
  set (l1 := fresh (dom (dd_heap rt))).
  set (l2 := fresh (dom (<[l1 := DefaultDict_default]> (dd_heap rt)))).
  assert (H1 : l1 ∉ dom (dd_heap rt)) by apply is_fresh.
  assert (H2 : l2 ∉ dom (<[l1 := DefaultDict_default]> (dd_heap rt)))
    by apply is_fresh.
  rewrite dom_insert_L in H2.
  apply not_elem_of_union in H2 as [Hne%not_elem_of_singleton H2].
  split; [| split; [| split; [| split]]].
  - rewrite lookup_insert_ne by exact Hne. apply lookup_insert_eq.
  - apply lookup_insert_eq.
  - intros Heq. apply Hne. symmetry. exact Heq.
  - exact H1.
  - exact H2.
Qed.

(** C9. The default DefaultDict of each constructor is created once, when
    the class statement is executed. Every GradientPTQConfig constructed
    without an lsb_change_per_bit_width argument refers to that one object,
    and so does, for its own default, every GradientPTQConfigV2: a write
    made through one such instance is read back through any other. *)
Theorem default_lsb_dict_shared
    (lg : string -> M unit) (rt_def rt_cls : Runtime) (env : ClassEnv)
    (kw1 kw2 : Kwargs) :
  define_classes rt_def = (Ok env, rt_cls) →
  kw_lsb_change_per_bit_width kw1 = None →
  kw_lsb_change_per_bit_width kw2 = None →
  (dd_heap rt_cls !! v1_default_lsb env = Some DefaultDict_default ∧
   dd_heap rt_cls !! v2_default_lsb env = Some DefaultDict_default) ∧
  (∀ n1 n2 rta rta' rtb rtb' c1 c2,
     GradientPTQConfig__init__ lg env GradientPTQConfig n1 kw1 rta
       = (Ok c1, rta') →
     GradientPTQConfig__init__ lg env GradientPTQConfig n2 kw2 rtb
       = (Ok c2, rtb') →
     lsb_change_per_bit_width c1 = lsb_change_per_bit_width c2 ∧
     ∀ rt key v,
       is_Some (dd_heap rt !! lsb_change_per_bit_width c1) →
       dd_get (lsb_change_per_bit_width c2) key
         (dd_setitem (lsb_change_per_bit_width c1) key v rt).2 = Some v) ∧
  (∀ e1 e2 rta rta' rtb rtb' c1 c2,
     GradientPTQConfigV2__init__ lg env e1 kw1 rta = (Ok c1, rta') →
     GradientPTQConfigV2__init__ lg env e2 kw2 rtb = (Ok c2, rtb') →
     lsb_change_per_bit_width c1 = lsb_change_per_bit_width c2 ∧
     ∀ rt key v,
       is_Some (dd_heap rt !! lsb_change_per_bit_width c1) →
       dd_get (lsb_change_per_bit_width c2) key
         (dd_setitem (lsb_change_per_bit_width c1) key v rt).2 = Some v).
Proof.
  intros Hdef Hk1 Hk2.
  apply define_classes_objects in Hdef as (Hd1 & Hd2 & _).
  split; [split; assumption |]. split.
  - intros n1 n2 rta rta' rtb rtb' c1 c2 H1 H2.
    apply init_lsb in H1, H2. rewrite Hk1 in H1. rewrite Hk2 in H2.
    simpl in H1, H2. rewrite H1, H2. split; [reflexivity |].
    intros rt key v Hs. by apply dd_get_setitem.
  - intros e1 e2 rta rta' rtb rtb' c1 c2 H1 H2.
    apply initV2_lsb in H1, H2. rewrite Hk1 in H1. rewrite Hk2 in H2.
    simpl in H1, H2. rewrite H1, H2. split; [reflexivity |].
    intros rt key v Hs. by apply dd_get_setitem.
Qed.

Lemma default_lsb_dict_shared_witness :
  let c1 := initialised env0 GradientPTQConfig (Some 500) (default_kwargs PyNone) in
  let c2 := initialised env0 GradientPTQConfig (Some 20) (default_kwargs (PyOpaque "Adam")) in
  dd_get (lsb_change_per_bit_width c2) 8 rt0 = Some 1 ∧
  lsb_change_per_bit_width c1 = lsb_change_per_bit_width c2 ∧
  dd_get (lsb_change_per_bit_width c2) 8
    (dd_setitem (lsb_change_per_bit_width c1) 8 3 rt0).2 = Some 3.
Proof.
  pose proof (default_lsb_dict_shared Logger_error_spec empty_runtime rt0 env0
                (default_kwargs PyNone) (default_kwargs (PyOpaque "Adam"))
                eq_refl eq_refl eq_refl) as (_ & Hv1 & _).
  pose proof (Hv1 (Some 500) (Some 20) rt0 rt0 rt0 rt0 _ _ eq_refl eq_refl)
    as (Heq & Hobs).
  split; [reflexivity |]. split; [exact Heq |].
  apply Hobs. eexists. reflexivity.
Defined.

End GPTQ_Parameters.

(** ** The quantization dispatcher of a node *)

Section Dispatcher_Facts.
Import Dispatcher Claims.

Context {NodeType : Type} {Attr : Type} `{Countable Attr} {Heap : Type}.
Variable get_kernel_op_attributes : NodeType -> list Attr.
Variable get_weights_quantizer_for_node : @BaseNode NodeType -> St Heap loc.
Variable get_activations_quantizer_for_node : @BaseNode NodeType -> St Heap loc.

Lemma assign_all_lookup (attrs : list Attr) (q : loc) (d : gmap Attr loc)
    (a : Attr) :
  assign_all attrs q d !! a = if decide (a ∈ attrs) then Some q else d !! a.
Proof.
  unfold assign_all. revert d.
  induction attrs as [| b attrs IH]; intros d; simpl.
  - destruct (decide (a ∈ [])) as [Hin | _]; [| reflexivity].
    by apply not_elem_of_nil in Hin.
  - rewrite IH. destruct (decide (a ∈ attrs)) as [Hin | Hnin].
    + rewrite decide_True; [reflexivity | apply elem_of_cons; by right].
    + destruct (decide (a = b)) as [-> | Hne].
      * rewrite lookup_insert_eq.
        rewrite decide_True; [reflexivity | apply elem_of_cons; by left].
      * rewrite lookup_insert_ne by (intros E; apply Hne; symmetry; exact E).
        rewrite decide_False; [reflexivity |].
        intros [E | E]%elem_of_cons; contradiction.
Qed.

Lemma assign_all_dom (attrs : list Attr) (q : loc) :
  dom (assign_all attrs q ∅) = (list_to_set attrs : gset Attr).
Proof.
  apply set_eq. intros a.
  rewrite elem_of_dom, assign_all_lookup, elem_of_list_to_set.
  destruct (decide (a ∈ attrs)) as [Hin | Hnin].
  - split; [intros _; exact Hin | intros _; eexists; reflexivity].
  - rewrite lookup_empty. split; [intros [x Hx]; discriminate | contradiction].
Qed.

Lemma number_of_outputs_eq (o : OutputShape) :
  (if isinstance_list o then len_output_shape o else 1%nat)
  = number_of_outputs o.
Proof. destruct o; reflexivity. Qed.

(** C10. Provided the quantizer factories the function calls return, the
    function returns a dispatcher such that: with weights quantization
    enabled, the keys of the weight-quantizer mapping are exactly the kernel
    attributes of the node's type and every one of them maps to the single
    reference the weights factory returned; with activation quantization
    enabled, the activation-quantizer list consists of the single reference
    the activations factory returned (called once, after the weights side),
    repeated as many times as the node has outputs; with weights
    (activation) quantization disabled the mapping (the list) is empty. *)
Theorem dispatcher_containers (node : @BaseNode NodeType) (h : Heap) :
  (is_weights_quantization_enabled node = true →
   is_Ok (get_weights_quantizer_for_node node h).1 = true) →
  (is_activation_quantization_enabled node = true →
   ∀ h1, is_Ok (get_activations_quantizer_for_node node h1).1 = true) →
  ∃ d h',
    get_quantization_dispatcher get_kernel_op_attributes
      get_weights_quantizer_for_node get_activations_quantizer_for_node
      node h = (Ok d, h') ∧
    (if is_weights_quantization_enabled node then
       ∃ wq,
         (get_weights_quantizer_for_node node h).1 = Ok wq ∧
         dom (weight_quantizers d)
         = (list_to_set (get_kernel_op_attributes (type node)) : gset Attr) ∧
         ∀ a, a ∈ get_kernel_op_attributes (type node) →
              weight_quantizers d !! a = Some wq
     else weight_quantizers d = ∅) ∧
    (if is_activation_quantization_enabled node then
       ∃ aq,
         (get_activations_quantizer_for_node node
            (if is_weights_quantization_enabled node
             then (get_weights_quantizer_for_node node h).2 else h)).1
         = Ok aq ∧
         activation_quantizers d
         = replicate (number_of_outputs (output_shape node)) aq ∧
         length (activation_quantizers d)
         = number_of_outputs (output_shape node) ∧
         ∀ x, x ∈ activation_quantizers d → x = aq
     else activation_quantizers d = []).
Proof.
  intros Hw Ha. unfold get_quantization_dispatcher.
  rewrite number_of_outputs_eq.
  destruct (is_weights_quantization_enabled node) eqn:Ew.
  - specialize (Hw eq_refl). unfold bind at 1. unfold bind at 1.
    destruct (get_weights_quantizer_for_node node h) as [[wq | e] h1];
      [| discriminate Hw].
    unfold ret at 1.
    destruct (is_activation_quantization_enabled node) eqn:Ea.
    + specialize (Ha eq_refl h1). unfold bind. simpl.
      destruct (get_activations_quantizer_for_node node h1)
        as [[aq | e] h2]; [| discriminate Ha].
      unfold ret. eexists. eexists. split; [reflexivity |]. simpl. split.
      * exists wq. split; [reflexivity |]. split; [apply assign_all_dom |].
        intros a Hin. rewrite assign_all_lookup.
        rewrite decide_True; [reflexivity | exact Hin].
      * exists aq. split; [reflexivity |]. split; [reflexivity |].
        split; [apply length_replicate |].
        intros x Hx. by apply elem_of_replicate in Hx as [-> _].
    + unfold bind, ret. eexists. eexists. split; [reflexivity |]. simpl. split.
      * exists wq. split; [reflexivity |]. split; [apply assign_all_dom |].
        intros a Hin. rewrite assign_all_lookup.
        rewrite decide_True; [reflexivity | exact Hin].
      * reflexivity.
  - unfold bind at 1. unfold ret at 1.
    destruct (is_activation_quantization_enabled node) eqn:Ea.
    + specialize (Ha eq_refl h). unfold bind.
      destruct (get_activations_quantizer_for_node node h)
        as [[aq | e] h2]; [| discriminate Ha].
      unfold ret. eexists. eexists. split; [reflexivity |]. simpl. split.
      * reflexivity.
      * exists aq. split; [reflexivity |]. split; [reflexivity |].
        split; [apply length_replicate |].
        intros x Hx. by apply elem_of_replicate in Hx as [-> _].
    + unfold bind, ret. eexists. eexists. split; [reflexivity |]. simpl.
      split; reflexivity.
Qed.

End Dispatcher_Facts.

Lemma dispatcher_containers_witness :
  ∃ d h',
    Dispatcher.get_quantization_dispatcher Claims.kernel_attributes
      (fun _ => Claims.new_quantizer "weights")
      (fun _ => Claims.new_quantizer "activations")
      Claims.sep_conv_node ∅ = (Ok d, h') ∧
    Dispatcher.weight_quantizers d
    = <["pointwise_kernel" := 1%positive]> {["depthwise_kernel" := 1%positive]} ∧
    Dispatcher.activation_quantizers d = [2%positive; 2%positive].
Proof.
  destruct (dispatcher_containers Claims.kernel_attributes
              (fun _ => Claims.new_quantizer "weights")
              (fun _ => Claims.new_quantizer "activations")
              Claims.sep_conv_node ∅
              (fun _ => eq_refl) (fun _ _ => eq_refl))
    as (d & h' & Hd & _).
  exists d, h'. split; [exact Hd |].
  vm_compute in Hd. injection Hd as <- _.
  split; vm_compute; reflexivity.
Defined.

(** ** The graph store: deep copy and in-place correction *)

Section Store_Facts.
Import SecondMoment Claims.

Context {Tensor : Type} `{EqDecision Tensor} {Model : Type}.

(** A deep copy leaves every object of [D] as it was and puts its copies
    outside [D]. *)
Lemma deepcopy_nodes_frame (D : gset loc) (ls : list loc) :
  ∀ (memo : gmap loc loc) (h : gmap loc (@Node Tensor)) out memo' h',
    deepcopy_nodes ls memo h = (out, memo', h') →
    D ⊆ dom h →
    (∀ k v, memo !! k = Some v → v ∉ D) →
    (∀ l, l ∈ D → h' !! l = h !! l) ∧
    D ⊆ dom h' ∧
    (∀ l', l' ∈ out → l' ∉ D).
Proof.
  induction ls as [| l ls IH]; intros memo h out memo' h' Hc HD Hm;
    simpl in Hc.
  - injection Hc as <- <- <-. split; [done |]. split; [done |].
    intros l' Hl'. by apply elem_of_nil in Hl'.
  - destruct (memo !! l) as [l1 |] eqn:Eml.
    + destruct (deepcopy_nodes ls memo h) as [[out1 memo1] h1] eqn:Er.
      injection Hc as <- <- <-.
      destruct (IH _ _ _ _ _ Er HD Hm) as (Hf & Hd & Ho).
      split; [done |]. split; [done |].
      intros l' [-> | Hin]%elem_of_cons; [by eapply Hm | by apply Ho].
    + destruct (h !! l) as [n |] eqn:Ehl; [| by eapply IH].
      destruct (deepcopy_nodes ls (<[l := fresh (dom h)]> memo)
                  (<[fresh (dom h) := n]> h)) as [[out1 memo1] h1] eqn:Er.
      injection Hc as <- <- <-.
      assert (Hfresh : fresh (dom h) ∉ D).
      { intros Hin. apply (is_fresh (dom h)). by apply HD. }
      destruct (IH _ _ _ _ _ Er) as (Hf & Hd & Ho).
      { rewrite dom_insert_L. intros x Hx. apply elem_of_union. right.
        by apply HD. }
      { intros k v [[_ <-] | [_ Hkv]]%lookup_insert_Some;
          [exact Hfresh | by eapply Hm]. }
      split; [| split; [done |]].
      * intros x Hx. rewrite Hf by done. apply lookup_insert_ne.
        intros Heq. apply Hfresh. rewrite Heq. exact Hx.
      * intros l' [-> | Hin]%elem_of_cons; [exact Hfresh | by apply Ho].
Qed.

(** Repeated in-place updates touch the listed objects only. *)
Lemma foldl_alter_other (f : @Node Tensor → @Node Tensor) (ls : list loc) :
  ∀ (h : gmap loc (@Node Tensor)) l,
    l ∉ ls → foldl (fun h x => alter f x h) h ls !! l = h !! l.
Proof.
  induction ls as [| x ls IH]; intros h l Hl; simpl; [reflexivity |].
  apply not_elem_of_cons in Hl as [Hne Hl].
  rewrite IH by exact Hl. apply lookup_alter_ne.
  intros ->. by apply Hne.
Qed.

Lemma foldl_alter_once (f : @Node Tensor → @Node Tensor) (ls : list loc) :
  ∀ (h : gmap loc (@Node Tensor)) l,
    NoDup ls → l ∈ ls →
    foldl (fun h x => alter f x h) h ls !! l = f <$> h !! l.
Proof.
  induction ls as [| x ls IH]; intros h l Hnd Hl; simpl.
  - by apply elem_of_nil in Hl.
  - apply NoDup_cons in Hnd as [Hx Hnd].
    apply elem_of_cons in Hl as [-> | Hl].
    + rewrite foldl_alter_other by exact Hx. apply lookup_alter_eq.
    + rewrite IH by assumption. rewrite lookup_alter_ne; [reflexivity |].
      intros ->. by apply Hx.
Qed.

End Store_Facts.

(** ** Second-moment correction on a graph and on its deep copy *)

Section Correction_Facts.
Import SecondMoment Claims.

Context {Tensor : Type} `{EqDecision Tensor} {Model : Type}.
Variables GAMMA BETA MOVING_MEAN MOVING_VARIANCE : string.
Variable core_runner : St (@Store Tensor) loc.
Variable build_model : list (@Node Tensor) -> Model.
Variable measure : Model -> @Node Tensor -> Tensor * Tensor.

(** The correction of one batch-normalization node. *)
Lemma correct_node_weights (model : Model) (n : @Node Tensor) (key : string) :
  layer_class n = BatchNormalization →
  get_weights_by_keys (correct_node MOVING_MEAN MOVING_VARIANCE measure model n) key
  = if decide (key = MOVING_VARIANCE) then Some (measure model n).2
    else if decide (key = MOVING_MEAN) then Some (measure model n).1
    else get_weights_by_keys n key.
Proof.
  intros Hbn. unfold correct_node, get_weights_by_keys.
  rewrite bool_decide_eq_true_2 by exact Hbn. simpl.
  destruct (decide (key = MOVING_VARIANCE)) as [-> | Hv].
  - apply lookup_insert_eq.
  - rewrite lookup_insert_ne by (intros E; apply Hv; symmetry; exact E).
    destruct (decide (key = MOVING_MEAN)) as [-> | Hm].
    + apply lookup_insert_eq.
    + apply lookup_insert_ne. intros E. apply Hm. symmetry. exact E.
Qed.

(** C4. With four distinct weight keys, second-moment correction of a graph
    leaves gamma and beta of each of its batch-normalization nodes equal to
    their values before the correction, and sets moving_mean and
    moving_variance to the measured statistics: each of the two differs from
    its value before the correction whenever the measured statistic differs
    from that value. *)
Theorem correction_preserves_gamma_beta
    (model : Model) (g : loc) (s : @Store Tensor) (gr : Graph)
    (l : loc) (n : @Node Tensor) :
  NoDup [GAMMA; BETA; MOVING_MEAN; MOVING_VARIANCE] →
  graph_heap s !! g = Some gr →
  NoDup (nodes gr) →
  l ∈ nodes gr →
  node_heap s !! l = Some n →
  layer_class n = BatchNormalization →
  ∃ n',
    node_heap
      (keras_apply_second_moment_correction MOVING_MEAN MOVING_VARIANCE
         measure model g s).2 !! l = Some n' ∧
    get_weights_by_keys n' GAMMA = get_weights_by_keys n GAMMA ∧
    get_weights_by_keys n' BETA = get_weights_by_keys n BETA ∧
    get_weights_by_keys n' MOVING_MEAN = Some (measure model n).1 ∧
    get_weights_by_keys n' MOVING_VARIANCE = Some (measure model n).2 ∧
    (get_weights_by_keys n MOVING_MEAN ≠ Some (measure model n).1 →
     get_weights_by_keys n' MOVING_MEAN ≠ get_weights_by_keys n MOVING_MEAN) ∧
    (get_weights_by_keys n MOVING_VARIANCE ≠ Some (measure model n).2 →
     get_weights_by_keys n' MOVING_VARIANCE
     ≠ get_weights_by_keys n MOVING_VARIANCE).
Proof.
  intros Hkeys Hg Hnd Hl Hn Hbn.
  apply NoDup_cons in Hkeys as [Hg1 Hkeys].
  apply NoDup_cons in Hkeys as [Hb1 Hkeys].
  apply NoDup_cons in Hkeys as [Hm1 _].
  assert (Hgm : GAMMA ≠ MOVING_MEAN).
  { intros E. apply Hg1. rewrite E. set_unfold. tauto. }
  assert (Hgv : GAMMA ≠ MOVING_VARIANCE).
  { intros E. apply Hg1. rewrite E. set_unfold. tauto. }
  assert (Hbm : BETA ≠ MOVING_MEAN).
  { intros E. apply Hb1. rewrite E. set_unfold. tauto. }
  assert (Hbv : BETA ≠ MOVING_VARIANCE).
  { intros E. apply Hb1. rewrite E. set_unfold. tauto. }
  assert (Hmv : MOVING_MEAN ≠ MOVING_VARIANCE).
  { intros E. apply Hm1. rewrite E. set_unfold. tauto. }
  unfold keras_apply_second_moment_correction. rewrite Hg. simpl.
  rewrite foldl_alter_once by assumption. rewrite Hn. simpl.
  eexists. split; [reflexivity |].
  rewrite !correct_node_weights by exact Hbn.
  rewrite (decide_False (P := GAMMA = MOVING_VARIANCE)) by exact Hgv.
  rewrite (decide_False (P := GAMMA = MOVING_MEAN)) by exact Hgm.
  rewrite (decide_False (P := BETA = MOVING_VARIANCE)) by exact Hbv.
  rewrite (decide_False (P := BETA = MOVING_MEAN)) by exact Hbm.
  rewrite (decide_False (P := MOVING_MEAN = MOVING_VARIANCE)) by exact Hmv.
  rewrite (decide_True (P := MOVING_MEAN = MOVING_MEAN)) by reflexivity.
  rewrite (decide_True (P := MOVING_VARIANCE = MOVING_VARIANCE)) by reflexivity.
  repeat split.
  - intros Hne Heq. apply Hne. symmetry. exact Heq.
  - intros Hne Heq. apply Hne. symmetry. exact Heq.
Qed.

(** The original objects after the whole stage. *)
Lemma deepcopy_frame (tg : loc) (s : @Store Tensor) :
  is_Some (graph_heap s !! tg) →
  ∃ g2 s2 gr2,
    deepcopy tg s = (Ok g2, s2) ∧
    (g2 ∉ dom (graph_heap s)) ∧
    graph_heap s2 = <[g2 := gr2]> (graph_heap s) ∧
    (∀ l, l ∈ dom (node_heap s) → node_heap s2 !! l = node_heap s !! l) ∧
    (∀ l, l ∈ nodes gr2 → l ∉ dom (node_heap s)).
Proof.
  intros [gr Hgr]. unfold deepcopy. rewrite Hgr.
  destruct (deepcopy_nodes (nodes gr) ∅ (node_heap s)) as [[ns memo] h] eqn:Ed.
  destruct (deepcopy_nodes_frame (dom (node_heap s)) _ _ _ _ _ _ Ed)
    as (Hf & _ & Ho).
  { done. }
  { intros k v Hkv. by rewrite lookup_empty in Hkv. }
  eexists. eexists. eexists. split; [reflexivity |]. simpl.
  split; [apply is_fresh |]. split; [reflexivity |].
  split; [exact Hf | exact Ho].
Qed.

(** C8. The stage takes a deep copy of the graph the pipeline returned and
    corrects the copy: the graph handed back first is the pipeline's graph,
    the second is another object, and after the stage the pipeline's graph
    object and every node object that existed before the copy, hence every
    node of the pipeline's graph with its batch-normalization parameters,
    are what they were when the pipeline returned. *)
Theorem prepare_graph_leaves_original
    (s s1 : @Store Tensor) (tg : loc) :
  core_runner s = (Ok tg, s1) →
  is_Some (graph_heap s1 !! tg) →
  ∃ g2 s',
    prepare_graph MOVING_MEAN MOVING_VARIANCE core_runner build_model measure s
    = (Ok (tg, g2), s') ∧
    g2 ≠ tg ∧
    is_Some (graph_heap s' !! g2) ∧
    graph_heap s' !! tg = graph_heap s1 !! tg ∧
    (∀ l, l ∈ dom (node_heap s1) → node_heap s' !! l = node_heap s1 !! l) ∧
    (∀ gr l n, graph_heap s1 !! tg = Some gr → l ∈ nodes gr →
               node_heap s1 !! l = Some n → node_heap s' !! l = Some n).
Proof.
  intros Hcr Htg.
  destruct (deepcopy_frame tg s1 Htg) as (g2 & s2 & gr2 & Hd & Hg2 & Hgh & Hf & Ho).
  assert (Hne : g2 ≠ tg).
  { intros ->. apply Hg2. by apply elem_of_dom. }
  unfold prepare_graph. unfold bind at 1. rewrite Hcr.
  unfold bind at 1. rewrite Hd.
  unfold bind at 1, quantized_model_builder_for_second_moment_correction.
  unfold bind, keras_apply_second_moment_correction, ret.
  rewrite Hgh, lookup_insert_eq. simpl.
  eexists. eexists. split; [reflexivity |]. simpl.
  assert (Hframe : ∀ (m : Model) l, l ∈ dom (node_heap s1) →
            foldl (fun h x => alter
                     (correct_node MOVING_MEAN MOVING_VARIANCE measure m) x h)
              (node_heap s2) (nodes gr2) !! l = node_heap s1 !! l).
  { intros m l Hl. rewrite foldl_alter_other; [by apply Hf |].
    intros Hin. by apply (Ho l Hin). }
  split; [exact Hne |].
  split; [rewrite lookup_insert_eq; by eexists |].
  split; [by apply lookup_insert_ne |].
  split; [apply Hframe |].
  intros gr l n _ _ Hn. rewrite Hframe; [exact Hn |].
  apply elem_of_dom. by eexists.
Qed.

End Correction_Facts.

Lemma correction_preserves_gamma_beta_witness :
  ∃ n',
    SecondMoment.node_heap
      (SecondMoment.keras_apply_second_moment_correction
         "moving_mean" "moving_variance" Claims.test_measure tt 1%positive
         Claims.test_store).2 !! 3%positive = Some n' ∧
    SecondMoment.get_weights_by_keys n' "gamma" = Some 100 ∧
    SecondMoment.get_weights_by_keys n' "beta" = Some 0 ∧
    SecondMoment.get_weights_by_keys n' "moving_mean" = Some 800 ∧
    SecondMoment.get_weights_by_keys n' "moving_variance" = Some 25.
Proof.
  destruct (correction_preserves_gamma_beta
              "gamma" "beta" "moving_mean" "moving_variance"
              Claims.test_measure tt 1%positive Claims.test_store
              {| SecondMoment.nodes := [1; 2; 3; 4]%positive;
                 SecondMoment.edges := [(1, 2); (2, 3); (3, 4)]%positive |}
              3%positive Claims.bn_node)
    as (n' & Hn' & Hg & Hb & Hm & Hv & _).
  - apply (bool_decide_unpack _). vm_compute. exact I.
  - vm_compute. reflexivity.
  - apply (bool_decide_unpack _). vm_compute. exact I.
  - apply (bool_decide_unpack _). vm_compute. exact I.
  - vm_compute. reflexivity.
  - reflexivity.
  - exists n'. split; [exact Hn' |].
    split; [rewrite Hg; vm_compute; reflexivity |].
    split; [rewrite Hb; vm_compute; reflexivity |].
    split; [exact Hm | exact Hv].
Defined.

Lemma prepare_graph_leaves_original_witness :
  ∃ g2 s',
    Claims.test_prepare_graph Claims.test_store = (Ok (1%positive, g2), s') ∧
    g2 ≠ 1%positive ∧
    SecondMoment.node_heap s' !! 3%positive = Some Claims.bn_node.
Proof.
  destruct (prepare_graph_leaves_original "moving_mean" "moving_variance"
              Claims.test_core_runner (fun _ => tt) Claims.test_measure
              Claims.test_store Claims.test_store 1%positive eq_refl)
    as (g2 & s' & Hp & Hne & _ & _ & _ & Hn).
  - eexists. vm_compute. reflexivity.
  - exists g2, s'. split; [exact Hp |]. split; [exact Hne |].
    eapply (Hn _ 3%positive Claims.bn_node).
    + vm_compute. reflexivity.
    + apply (bool_decide_unpack _). vm_compute. exact I.
    + vm_compute. reflexivity.
Defined.

(** Without the copy the pipeline's graph itself is corrected: its
    batch-normalization node no longer holds the initial moving mean. *)
Lemma in_place_correction_changes_original :
  ∃ s' n',
    SecondMoment.prepare_graph_in_place "moving_mean" "moving_variance"
      Claims.test_core_runner (fun _ => tt) Claims.test_measure
      Claims.test_store = (Ok (1%positive, 1%positive), s') ∧
    SecondMoment.node_heap s' !! 3%positive = Some n' ∧
    SecondMoment.get_weights_by_keys n' "moving_mean" = Some 800 ∧
    SecondMoment.get_weights_by_keys Claims.bn_node "moving_mean" = Some 0.
Proof.
  eexists. eexists. split; [vm_compute; reflexivity |].
  split; [vm_compute; reflexivity |].
  split; vm_compute; reflexivity.
Qed.

(** ** Looking a node up by its name *)

Section Find_Facts.
Import SecondMoment Claims.

Context {Tensor : Type}.



End Find_Facts.


(** The subscript at line 226 of the value test on the set of the spec: the
    test stops with TypeError at the batch-normalization node. *)
Lemma subscript_of_the_set_raises :
  (Claims.test_run SecondMoment.find_node_by_name Claims.test_store).1
  = Raise (TypeError "'set' object is not subscriptable").
Proof. vm_compute. reflexivity. Qed.

(** ** Further properties of the configuration classes *)

Section GPTQ_More.
Import GPTQ Claims Scenarios.

Lemma verify_true_iff (q : QuantizerConfig) (r : RoundingValue) :
  _verify_quantizer_config q r = true ↔
  (r = Member SoftQuantizer ∧ qc_type q = SoftQuantizerConfig) ∨
  (r ≠ Member SoftQuantizer ∧ qc_type q = GPTQQuantizerConfig).
Proof.
  unfold _verify_quantizer_config.
  destruct (decide (r = Member SoftQuantizer)) as [-> | Hr].
  - rewrite bool_decide_eq_true_2 by reflexivity.
    rewrite bool_decide_eq_true. split.
    + intros Hq. left. by split.
    + intros [[_ Hq] | [Hne _]]; [exact Hq | contradiction].
  - rewrite bool_decide_eq_false_2 by exact Hr.
    rewrite bool_decide_eq_true. split.
    + intros Hq. right. by split.
    + intros [[Heq _] | [_ Hq]]; [contradiction | exact Hq].
Qed.

Lemma guard_false_iff (kw : Kwargs) :
  kw_quantization_parameters_learning kw
    && bool_decide (kw_rounding_type kw = Member STE) = false ↔
  ¬ (kw_quantization_parameters_learning kw = true ∧
     kw_rounding_type kw = Member STE).
Proof.
  rewrite andb_false_iff, bool_decide_eq_false. split.
  - intros [Hq | Hr] [Hq' Hr']; [congruence | contradiction].
  - intros Hn. destruct (kw_quantization_parameters_learning kw);
      [right | left; reflexivity].
    intros Hr. apply Hn. by split.
Qed.

(** The initializer with an arbitrary logger, when no check fails. *)
Lemma init_silent lg env cls n kw rt :
  kw_quantization_parameters_learning kw
    && bool_decide (kw_rounding_type kw = Member STE) = false →
  _verify_quantizer_config (effective_config kw) (kw_rounding_type kw) = true →
  GradientPTQConfig__init__ lg env cls n kw rt
  = (Ok (initialised env cls n kw), rt).
Proof.
  intros Hq Hv. unfold GradientPTQConfig__init__, bind.
  fold (effective_config kw). rewrite Hq, Hv. reflexivity.
Qed.

(** The [quantizer_config] attribute of whatever instance comes back. *)
Lemma init_quantizer_config lg env cls n kw rt c rt' :
  GradientPTQConfig__init__ lg env cls n kw rt = (Ok c, rt') →
  quantizer_config c
  = if _verify_quantizer_config (effective_config kw) (kw_rounding_type kw)
    then Some (effective_config kw) else None.
Proof.
  unfold GradientPTQConfig__init__, bind. fold (effective_config kw).
  destruct (if _ && _ then lg _ else ret tt) as [[[]|e] rt1]; [|discriminate].
  destruct (_verify_quantizer_config _ _).
  - unfold ret. intros [= <- _]. reflexivity.
  - destruct (lg _ rt1) as [[[]|e] rt2]; [|discriminate].
    unfold ret. intros [= <- _]. reflexivity.
Qed.

Lemma accepted_checks (kw : Kwargs) :
  accepted kw ↔
  kw_quantization_parameters_learning kw
    && bool_decide (kw_rounding_type kw = Member STE) = false ∧
  _verify_quantizer_config (effective_config kw) (kw_rounding_type kw) = true.
Proof.
  rewrite guard_false_iff, verify_true_iff. unfold accepted. split.
  - intros [[Hr Hq] | (Hr & Hq & Hg)].
    + split; [| left; by split]. intros [_ Hs]. congruence.
    + split; [exact Hg | right; by split].
  - intros [Hg [[Hr Hq] | [Hr Hq]]]; [left; by split | right; by repeat split].
Qed.

Lemma initV2_silent lg env ne kw rt :
  accepted kw →
  GradientPTQConfigV2__init__ lg env ne kw rt
  = (Ok (initialised_v2 env ne kw), rt).
Proof.
  intros [Hg Hv]%accepted_checks.
  unfold GradientPTQConfigV2__init__, bind.
  rewrite init_silent; [reflexivity | exact Hg | exact Hv].
Qed.

(** With the logger of the spec, GradientPTQConfig and GradientPTQConfigV2
    return an instance exactly for the accepted combinations: SoftQuantizer
    with exactly a SoftQuantizerConfig, or any other rounding value with
    exactly a GPTQQuantizerConfig, unless that value is STE and
    quantization-parameters learning is on. *)
Theorem construction_accepted_iff
    (env : ClassEnv) (n : option Z) (ne : Z) (kw : Kwargs) (rt : Runtime) :
  (is_Ok (GradientPTQConfig__init__ Logger_error_spec env GradientPTQConfig
            n kw rt).1 = true ↔ accepted kw) ∧
  (is_Ok (GradientPTQConfigV2__init__ Logger_error_spec env ne kw rt).1 = true
   ↔ accepted kw).
Proof.
  pose proof (accepted_checks kw) as Hacc.
  split.
  - rewrite Hacc. split.
    + intros Hok.
      destruct (GradientPTQConfig__init__ _ _ _ _ _ rt) as [[c|e] rt1] eqn:Hi;
        [| discriminate].
      apply init_ok_inv in Hi as (_ & Hg & Hv & _). by split.
    + intros [Hg Hv]. rewrite init_ok by assumption. reflexivity.
  - rewrite Hacc. split.
    + intros Hok.
      destruct (GradientPTQConfigV2__init__ _ _ _ _ rt) as [[c|e] rt1] eqn:Hi;
        [| discriminate].
      unfold GradientPTQConfigV2__init__ in Hi. unfold bind at 1 in Hi.
      destruct (GradientPTQConfig__init__ _ _ _ _ _ rt) as [[c'|e] rt2] eqn:Hj;
        [| discriminate].
      apply init_ok_inv in Hj as (_ & Hg & Hv & _). by split.
    + intros [Hg Hv]. unfold GradientPTQConfigV2__init__, bind.
      rewrite init_ok; [reflexivity | exact Hg | exact Hv].
Qed.

Lemma construction_accepted_iff_witness :
  is_Ok (GradientPTQConfig__init__ Logger_error_spec env0 GradientPTQConfig
           (Some 500)
           (with_rounding (NonMember PyNone) true
              (Some GPTQQuantizerConfig_new) (default_kwargs PyNone)) rt0).1
  = true.
Proof.
  apply (proj1 (construction_accepted_iff env0 (Some 500) 0
                  (with_rounding (NonMember PyNone) true
                     (Some GPTQQuantizerConfig_new) (default_kwargs PyNone))
                  rt0)).
  right. split; [discriminate |]. split; [reflexivity |].
  intros [_ Hr]. discriminate Hr.
Defined.

(** Whatever the logger is, a call that passes both checks never reaches it:
    both constructors hand back the instance holding the arguments as given
    and leave the runtime, log included, as it was. *)
Theorem valid_construction_is_silent
    (lg : string -> M unit) (env : ClassEnv) (n : option Z) (ne : Z)
    (kw : Kwargs) (rt : Runtime) :
  accepted kw →
  GradientPTQConfig__init__ lg env GradientPTQConfig n kw rt
  = (Ok (initialised env GradientPTQConfig n kw), rt) ∧
  GradientPTQConfigV2__init__ lg env ne kw rt
  = (Ok (initialised_v2 env ne kw), rt).
Proof.
  intros Hacc. split; [| by apply initV2_silent].
  apply accepted_checks in Hacc as [Hg Hv]. by apply init_silent.
Qed.

Lemma valid_construction_is_silent_witness :
  GradientPTQConfigV2__init__ Logger_error_log_only env0 50
    (default_kwargs (PyOpaque "Adam")) rt0
  = (Ok (initialised_v2 env0 50 (default_kwargs (PyOpaque "Adam"))), rt0).
Proof.
  apply (proj2 (valid_construction_is_silent Logger_error_log_only env0
                  None 50 (default_kwargs (PyOpaque "Adam")) rt0
                  (or_introl (conj eq_refl eq_refl)))).
Defined.

(** When the quantizer_config argument is omitted, the instance that comes
    back, whatever the logger, holds a quantizer config exactly when the
    rounding type is SoftQuantizer: the default config fits no other
    rounding value. *)
Theorem default_config_requires_soft_rounding
    (lg : string -> M unit) (env : ClassEnv) (cls : ConfigClass)
    (n : option Z) (kw : Kwargs) (rt rt' : Runtime) (c : Config) :
  kw_quantizer_config kw = None →
  GradientPTQConfig__init__ lg env cls n kw rt = (Ok c, rt') →
  (quantizer_config c = Some SoftQuantizerConfig_new
   ↔ kw_rounding_type kw = Member SoftQuantizer) ∧
  (quantizer_config c = None
   ↔ kw_rounding_type kw ≠ Member SoftQuantizer).
Proof.
  intros Hnone Hi. apply init_quantizer_config in Hi.
  unfold effective_config in Hi. rewrite Hnone in Hi. simpl in Hi.
  unfold _verify_quantizer_config in Hi. simpl in Hi.
  destruct (decide (kw_rounding_type kw = Member SoftQuantizer)) as [Hr | Hr].
  - rewrite bool_decide_eq_true_2 in Hi by exact Hr. simpl in Hi.
    rewrite Hi. split; split; intros H; try done.
  - rewrite bool_decide_eq_false_2 in Hi by exact Hr. simpl in Hi.
    rewrite Hi. split; split; intros H; try done.
Qed.

Lemma default_config_requires_soft_rounding_witness :
  ∃ c rt',
    GradientPTQConfig__init__ Logger_error_log_only env0 GradientPTQConfig
      (Some 500) (with_rounding (Member STE) false None (default_kwargs PyNone))
      rt0 = (Ok c, rt') ∧
    quantizer_config c = None ∧
    length (log rt') = 1%nat.
Proof.
  eexists. eexists. split; [vm_compute; reflexivity |].
  split; [| reflexivity].
  apply (proj2 (default_config_requires_soft_rounding Logger_error_log_only
                  env0 GradientPTQConfig (Some 500)
                  (with_rounding (Member STE) false None (default_kwargs PyNone))
                  rt0 _ _ eq_refl eq_refl)).
  discriminate.
Defined.

End GPTQ_More.

(** ** Further properties of the conversion and of the shared dictionaries *)

Section GPTQ_Conversion_More.
Import GPTQ Claims Scenarios.

Lemma initV2_inv lg env ne kw rt c rt' :
  GradientPTQConfigV2__init__ lg env ne kw rt = (Ok c, rt') →
  n_iter c = None ∧ n_epochs c = Some ne ∧
  cfg_class c = GradientPTQConfigV2 ∧
  rounding_type c = kw_rounding_type kw ∧
  quantizer_config c
  = (if _verify_quantizer_config (effective_config kw) (kw_rounding_type kw)
     then Some (effective_config kw) else None).
Proof.
  unfold GradientPTQConfigV2__init__. fold (effective_config kw).
  unfold bind at 1.
  destruct (GradientPTQConfig__init__ _ _ _ _ _ rt) as [[c'|e] rt2] eqn:Hi;
    [| discriminate].
  unfold ret. intros [= <- _].
  pose proof (init_quantizer_config _ _ _ _ _ _ _ _ Hi) as Hq.
  rewrite effective_config_resolved in Hq. simpl in Hq.
  revert Hi. unfold GradientPTQConfig__init__, bind.
  destruct (if _ && _ then lg _ else ret tt) as [[[]|e] rt1]; [|discriminate].
  destruct (_verify_quantizer_config _ _).
  - unfold ret. intros [= <- _]. simpl in *. repeat split; exact Hq.
  - destruct (lg _ rt1) as [[[]|e] rt3]; [|discriminate].
    unfold ret. intros [= <- _]. simpl in *. repeat split; exact Hq.
Qed.

(** from_v1 does not accept what it produces: on any instance built by
    GradientPTQConfigV2, whose n_iter is None, it raises TypeError before
    anything is constructed or logged. *)
Theorem from_v1_rejects_v2
    (lg : string -> M unit) (env : ClassEnv) (ne n_ptq_iter : Z)
    (kw : Kwargs) (rt rt1 rt' : Runtime) (c : Config) :
  GradientPTQConfigV2__init__ lg env ne kw rt = (Ok c, rt1) →
  from_v1 lg env n_ptq_iter c rt'
  = (Raise (TypeError "type NoneType doesn't define __round__ method"), rt').
Proof.
  intros Hi. apply initV2_inv in Hi as (Hn & _).
  unfold from_v1. unfold bind at 1. rewrite Hn. reflexivity.
Qed.

Lemma from_v1_rejects_v2_witness :
  from_v1 Logger_error_spec env0 10
    (initialised_v2 env0 50 (default_kwargs PyNone)) rt0
  = (Raise (TypeError "type NoneType doesn't define __round__ method"), rt0).
Proof.
  exact (from_v1_rejects_v2 Logger_error_spec env0 50 10
           (default_kwargs PyNone) rt0 rt0 rt0 _ eq_refl).
Defined.

(** With a representative dataset of length 0, from_v1 raises
    ZeroDivisionError on every configuration whose n_iter is an int,
    whatever the logger, and nothing is constructed or logged. *)
Theorem from_v1_zero_length
    (lg : string -> M unit) (env : ClassEnv) (n : Z) (c : Config)
    (rt : Runtime) :
  n_iter c = Some n →
  from_v1 lg env 0 c rt
  = (Raise (ZeroDivisionError "division by zero"), rt).
Proof.
  intros Hn. unfold from_v1. unfold bind at 1. rewrite Hn. reflexivity.
Qed.

Lemma from_v1_zero_length_witness :
  from_v1 Logger_error_spec env0 0
    (initialised env0 GradientPTQConfig (Some 500) (default_kwargs PyNone)) rt0
  = (Raise (ZeroDivisionError "division by zero"), rt0).
Proof.
  exact (from_v1_zero_length Logger_error_spec env0 500
           (initialised env0 GradientPTQConfig (Some 500) (default_kwargs PyNone))
           rt0 eq_refl).
Defined.

(** from_v1 carries every keyword attribute of the V1 configuration over
    unchanged, the quantizer config included, and hands the V2 configuration
    the very DefaultDict object of the V1 one: a write through either is
    read back through the other. *)
Theorem from_v1_keeps_attributes
    (env : ClassEnv) (n n_ptq_iter : Z) (kw : Kwargs)
    (rt rt1 rt' rt2 : Runtime) (c1 c2 : Config) :
  GradientPTQConfig__init__ Logger_error_spec env GradientPTQConfig
    (Some n) kw rt = (Ok c1, rt1) →
  from_v1 Logger_error_spec env n_ptq_iter c1 rt' = (Ok c2, rt2) →
  rt2 = rt' ∧
  dict_kwargs c2 = dict_kwargs c1 ∧
  lsb_change_per_bit_width c2 = lsb_change_per_bit_width c1 ∧
  ∀ h key v,
    is_Some (dd_heap h !! lsb_change_per_bit_width c1) →
    dd_get (lsb_change_per_bit_width c2) key
      (dd_setitem (lsb_change_per_bit_width c1) key v h).2 = Some v.
Proof.
  intros Hi Hf. apply init_ok_inv in Hi as (_ & Hq & Hv & ->).
  revert Hf. unfold from_v1. unfold bind at 1. simpl.
  unfold bind at 1, lift_result.
  destruct (py_truediv (py_round n) n_ptq_iter) as [q | e]; [| discriminate].
  unfold GradientPTQConfigV2__init__, bind.
  rewrite init_ok; [| exact Hq | exact Hv].
  unfold ret. intros [= <- <-].
  split; [reflexivity |]. split; [reflexivity |]. split; [reflexivity |].
  intros h key v Hs. simpl. by apply dd_get_setitem.
Qed.

Lemma from_v1_keeps_attributes_witness :
  ∃ c2,
    from_v1 Logger_error_spec env0 10
      (initialised env0 GradientPTQConfig (Some 500)
         (default_kwargs (PyOpaque "Adam"))) rt0 = (Ok c2, rt0) ∧
    optimizer c2 = PyOpaque "Adam" ∧
    lsb_change_per_bit_width c2 = v1_default_lsb env0.
Proof.
  eexists. split; [vm_compute; reflexivity |].
  pose proof (from_v1_keeps_attributes env0 500 10
                (default_kwargs (PyOpaque "Adam")) rt0 rt0 rt0 rt0 _ _
                eq_refl eq_refl) as (_ & _ & Hl & _).
  split; [reflexivity | exact Hl].
Defined.

(** For an iteration count 0 <= n_iter < 2^53 and a dataset length
    0 < n_ptq_iter < 2^53 the epoch count from_v1 computes is the floor of
    the quotient: the epochs never cover more than n_iter iterations and
    fall short of it by less than one epoch; fewer iterations than one epoch
    give zero epochs. *)
Theorem from_v1_epochs_bounds
    (env : ClassEnv) (n n_ptq_iter : Z) (kw : Kwargs)
    (rt rt1 rt' rt2 : Runtime) (c1 c2 : Config) :
  (0 <= n < 2 ^ 53)%Z → (0 < n_ptq_iter < 2 ^ 53)%Z →
  GradientPTQConfig__init__ Logger_error_spec env GradientPTQConfig
    (Some n) kw rt = (Ok c1, rt1) →
  from_v1 Logger_error_spec env n_ptq_iter c1 rt' = (Ok c2, rt2) →
  ∃ e,
    n_epochs c2 = Some e ∧
    (0 <= e)%Z ∧
    (e * n_ptq_iter <= n < (e + 1) * n_ptq_iter)%Z ∧
    ((n < n_ptq_iter)%Z → e = 0%Z).
Proof.
  intros Hn Hp Hi Hf. apply init_ok_inv in Hi as (_ & Hq & Hv & ->).
  destruct (py_int_truediv_small n n_ptq_iter Hn Hp) as (q & Hdiv & Hint).
  revert Hf. unfold from_v1. unfold bind at 1. simpl.
  unfold bind at 1, lift_result. unfold py_round. rewrite Hdiv, Hint.
  unfold GradientPTQConfigV2__init__, bind.
  rewrite init_ok; [| exact Hq | exact Hv].
  unfold ret. intros [= <- _].
  exists (n / n_ptq_iter)%Z. split; [reflexivity |].
  assert (Hp0 : (0 < n_ptq_iter)%Z) by lia.
  pose proof (Z.div_pos n n_ptq_iter ltac:(lia) Hp0) as H0.
  pose proof (Z.mul_div_le n n_ptq_iter Hp0) as H1.
  pose proof (Z.mul_succ_div_gt n n_ptq_iter Hp0) as H2.
  split; [exact H0 |]. split; [lia |].
  intros Hlt. apply Z.div_small. lia.
Qed.

Lemma from_v1_epochs_bounds_witness :
  ∃ c2,
    from_v1 Logger_error_spec env0 10
      (initialised env0 GradientPTQConfig (Some 7) (default_kwargs PyNone))
      rt0 = (Ok c2, rt0) ∧
    n_epochs c2 = Some 0.
Proof.
  exists (initialised_v2 env0 0
            (dict_kwargs (initialised env0 GradientPTQConfig (Some 7)
                            (default_kwargs PyNone)))).
  assert (Hf : from_v1 Logger_error_spec env0 10
                 (initialised env0 GradientPTQConfig (Some 7)
                    (default_kwargs PyNone)) rt0
               = (Ok (initialised_v2 env0 0
                        (dict_kwargs (initialised env0 GradientPTQConfig
                                        (Some 7) (default_kwargs PyNone)))),
                  rt0)).
  { vm_compute. reflexivity. }
  split; [exact Hf |].
  destruct (from_v1_epochs_bounds env0 7 10 (default_kwargs PyNone)
              rt0 rt0 rt0 rt0 _ _ ltac:(lia) ltac:(lia) eq_refl Hf)
    as (e & He & _ & _ & Hz).
  rewrite He. f_equal. apply Hz. lia.
Defined.

(** The defaults of the two constructors are two objects: a write through
    an instance of GradientPTQConfig that omitted lsb_change_per_bit_width
    is not seen through an instance of GradientPTQConfigV2 that omitted it. *)
Theorem v1_and_v2_defaults_are_separate
    (lg : string -> M unit) (rt_def rt_cls : Runtime) (env : ClassEnv)
    (n1 : option Z) (e2 : Z) (kw1 kw2 : Kwargs)
    (rta rta' rtb rtb' : Runtime) (c1 c2 : Config) :
  define_classes rt_def = (Ok env, rt_cls) →
  kw_lsb_change_per_bit_width kw1 = None →
  kw_lsb_change_per_bit_width kw2 = None →
  GradientPTQConfig__init__ lg env GradientPTQConfig n1 kw1 rta = (Ok c1, rta') →
  GradientPTQConfigV2__init__ lg env e2 kw2 rtb = (Ok c2, rtb') →
  lsb_change_per_bit_width c1 ≠ lsb_change_per_bit_width c2 ∧
  ∀ h key v,
    dd_get (lsb_change_per_bit_width c2) key
      (dd_setitem (lsb_change_per_bit_width c1) key v h).2
    = dd_get (lsb_change_per_bit_width c2) key h.
Proof.
  intros Hdef Hk1 Hk2 H1 H2.
  apply define_classes_objects in Hdef as (_ & _ & Hne & _).
  apply init_lsb in H1. apply initV2_lsb in H2.
  rewrite Hk1 in H1. rewrite Hk2 in H2. simpl in H1, H2.
  rewrite H1, H2. split; [exact Hne |].
  intros h key v. unfold dd_get, dd_setitem. simpl.
  rewrite lookup_alter_ne by exact Hne. reflexivity.
Qed.

Lemma v1_and_v2_defaults_are_separate_witness :
  let c1 := initialised env0 GradientPTQConfig (Some 500) (default_kwargs PyNone) in
  let c2 := initialised_v2 env0 50 (default_kwargs PyNone) in
  dd_get (lsb_change_per_bit_width c2) 8
    (dd_setitem (lsb_change_per_bit_width c1) 8 3 rt0).2 = Some 1.
Proof.
  pose proof (v1_and_v2_defaults_are_separate Logger_error_spec empty_runtime
                rt0 env0 (Some 500) 50 (default_kwargs PyNone)
                (default_kwargs PyNone) rt0 rt0 rt0 rt0
                (initialised env0 GradientPTQConfig (Some 500)
                   (default_kwargs PyNone))
                (initialised_v2 env0 50 (default_kwargs PyNone))
                eq_refl eq_refl eq_refl eq_refl eq_refl) as (_ & Hsep).
  intros c1 c2. exact (eq_trans (Hsep rt0 8 3) eq_refl).
Defined.

End GPTQ_Conversion_More.

(** ** What the extended parameters need from the instance *)

Section GPTQ_Parameters_More.
Import GPTQ Claims Scenarios.

(** The rounding type is never validated: with a value that is no member of
    RoundingType and exactly a GPTQQuantizerConfig, GradientPTQConfigV2
    builds the instance without calling the logger, even with
    quantization-parameters learning on, and that instance yields no
    extended quantizer parameters at all. *)
Theorem non_member_rounding_accepted
    (N_BATCHES_STR QUANT_PARAM_LEARNING_STR N_EPOCHS_STR MAX_LSB_STR : string)
    (lg : string -> M unit) (env : ClassEnv) (ne : Z) (kw : Kwargs)
    (rt : Runtime) (v : Any) :
  kw_rounding_type kw = NonMember v →
  qc_type (effective_config kw) = GPTQQuantizerConfig →
  GradientPTQConfigV2__init__ lg env ne kw rt
  = (Ok (initialised_v2 env ne kw), rt) ∧
  get_extended_quantizer_parametes
    N_BATCHES_STR QUANT_PARAM_LEARNING_STR N_EPOCHS_STR MAX_LSB_STR
    (initialised_v2 env ne kw) = Ok ∅.
Proof.
  intros Hr Hq. split.
  - apply initV2_silent.
    right. rewrite Hr. split; [discriminate |]. split; [exact Hq |].
    intros [_ Hs]. discriminate Hs.
  - unfold get_extended_quantizer_parametes,
      get_extended_quantizer_parametes_body. simpl. rewrite Hr. reflexivity.
Qed.

Lemma non_member_rounding_accepted_witness :
  let kw := with_rounding (NonMember (PyOpaque "1")) true
              (Some GPTQQuantizerConfig_new) (default_kwargs PyNone) in
  GradientPTQConfigV2__init__ Logger_error_spec env0 50 kw rt0
  = (Ok (initialised_v2 env0 50 kw), rt0) ∧
  get_extended_quantizer_parametes
    k_n_batches k_param_learning k_n_epochs k_max_lsb
    (initialised_v2 env0 50 kw) = Ok ∅.
Proof.
  exact (non_member_rounding_accepted
           k_n_batches k_param_learning k_n_epochs k_max_lsb
           Logger_error_spec env0 50
           (with_rounding (NonMember (PyOpaque "1")) true
              (Some GPTQQuantizerConfig_new) (default_kwargs PyNone))
           rt0 (PyOpaque "1") eq_refl eq_refl).
Defined.

(** Should the logger return instead of raising, a GradientPTQConfigV2 built
    with rounding type SoftQuantizer and a config that is not exactly a
    SoftQuantizerConfig has no quantizer_config attribute, and asking it for
    its extended quantizer parameters raises AttributeError. *)
Theorem mismatched_soft_instance_unusable
    (N_BATCHES_STR QUANT_PARAM_LEARNING_STR N_EPOCHS_STR MAX_LSB_STR : string)
    (lg : string -> M unit) (env : ClassEnv) (ne : Z) (kw : Kwargs)
    (rt rt' : Runtime) (c : Config) :
  kw_rounding_type kw = Member SoftQuantizer →
  qc_type (effective_config kw) ≠ SoftQuantizerConfig →
  GradientPTQConfigV2__init__ lg env ne kw rt = (Ok c, rt') →
  quantizer_config c = None ∧
  get_extended_quantizer_parametes
    N_BATCHES_STR QUANT_PARAM_LEARNING_STR N_EPOCHS_STR MAX_LSB_STR c
  = Raise (AttributeError "quantizer_config").
Proof.
  intros Hr Hq Hi.
  apply initV2_inv in Hi as (_ & _ & Hc & Hrt & Hqc).
  rewrite Hr, verify_soft in Hqc.
  rewrite bool_decide_eq_false_2 in Hqc by exact Hq.
  split; [exact Hqc |].
  unfold get_extended_quantizer_parametes,
    get_extended_quantizer_parametes_body.
  rewrite Hc, Hrt, Hr, Hqc. reflexivity.
Qed.

Lemma mismatched_soft_instance_unusable_witness :
  ∃ c rt',
    GradientPTQConfigV2__init__ Logger_error_log_only env0 50
      (with_rounding (Member SoftQuantizer) false
         (Some GPTQQuantizerConfig_new) (default_kwargs PyNone)) rt0
    = (Ok c, rt') ∧
    get_extended_quantizer_parametes
      k_n_batches k_param_learning k_n_epochs k_max_lsb c
    = Raise (AttributeError "quantizer_config").
Proof.
  destruct (GradientPTQConfigV2__init__ Logger_error_log_only env0 50
              (with_rounding (Member SoftQuantizer) false
                 (Some GPTQQuantizerConfig_new) (default_kwargs PyNone)) rt0)
    as [[c | e] rt'] eqn:Hi.
  - exists c, rt'. split; [reflexivity |].
    refine (proj2 (mismatched_soft_instance_unusable
                     k_n_batches k_param_learning k_n_epochs k_max_lsb
                     Logger_error_log_only env0 50
                     (with_rounding (Member SoftQuantizer) false
                        (Some GPTQQuantizerConfig_new) (default_kwargs PyNone))
                     rt0 rt' c eq_refl _ Hi)).
    discriminate.
  - vm_compute in Hi. discriminate Hi.
Defined.

End GPTQ_Parameters_More.

(** ** Effects, errors and edge cases of the dispatcher construction *)

Section Dispatcher_More.
Import Dispatcher Claims.

Context {NodeType : Type} {Attr : Type} `{Countable Attr} {Heap : Type}.
Variable get_kernel_op_attributes : NodeType -> list Attr.
Variable get_weights_quantizer_for_node : @BaseNode NodeType -> St Heap loc.
Variable get_activations_quantizer_for_node : @BaseNode NodeType -> St Heap loc.

Local Abbreviation dispatch :=
  (get_quantization_dispatcher get_kernel_op_attributes
     get_weights_quantizer_for_node get_activations_quantizer_for_node).

(** A successful run, taken apart. *)
Lemma dispatcher_inv (node : @BaseNode NodeType) (h h' : Heap)
    (d : KerasNodeQuantizationDispatcher) :
  dispatch node h = (Ok d, h') →
  ∃ h1,
    (if is_weights_quantization_enabled node then
       ∃ q, get_weights_quantizer_for_node node h = (Ok q, h1) ∧
            weight_quantizers d
            = assign_all (get_kernel_op_attributes (type node)) q ∅
     else h1 = h ∧ weight_quantizers d = ∅) ∧
    (if is_activation_quantization_enabled node then
       ∃ q, get_activations_quantizer_for_node node h1 = (Ok q, h') ∧
            activation_quantizers d
            = replicate (number_of_outputs (output_shape node)) q
     else h' = h1 ∧ activation_quantizers d = []).
Proof.
  unfold get_quantization_dispatcher. rewrite number_of_outputs_eq.
  destruct (is_weights_quantization_enabled node).
  - unfold bind at 1. unfold bind at 1.
    destruct (get_weights_quantizer_for_node node h) as [[wq | e] h1] eqn:Ew;
      [| discriminate].
    unfold ret at 1.
    destruct (is_activation_quantization_enabled node).
    + unfold bind.
      destruct (get_activations_quantizer_for_node node h1)
        as [[aq | e] h2] eqn:Ea; [| discriminate].
      unfold ret. intros [= <- <-]. exists h1. simpl.
      split; [exists wq | exists aq]; split; (reflexivity || assumption).
    + unfold bind, ret. intros [= <- <-]. exists h1. simpl.
      split; [exists wq; split; reflexivity | split; reflexivity].
  - unfold bind at 1. unfold ret at 1.
    destruct (is_activation_quantization_enabled node).
    + unfold bind.
      destruct (get_activations_quantizer_for_node node h)
        as [[aq | e] h2] eqn:Ea; [| discriminate].
      unfold ret. intros [= <- <-]. exists h. simpl.
      split; [split; reflexivity | exists aq; split; (reflexivity || assumption)].
    + unfold bind, ret. intros [= <- <-]. exists h. simpl.
      split; split; reflexivity.
Qed.

(** The interpreter state after the function is the state left by the
    weights factory, run first and only if weights quantization is enabled,
    followed by the activations factory, run only if activation quantization
    is enabled: no factory is called for a disabled kind, and none twice. *)
Theorem dispatcher_effects_in_order
    (node : @BaseNode NodeType) (h h' : Heap)
    (d : KerasNodeQuantizationDispatcher) :
  dispatch node h = (Ok d, h') →
  h' = (let h1 := if is_weights_quantization_enabled node
                  then (get_weights_quantizer_for_node node h).2 else h in
        if is_activation_quantization_enabled node
        then (get_activations_quantizer_for_node node h1).2 else h1).
Proof.
  intros (h1 & Hw & Ha)%dispatcher_inv. simpl.
  destruct (is_weights_quantization_enabled node).
  - destruct Hw as (q & Hq & _). rewrite Hq. simpl.
    destruct (is_activation_quantization_enabled node).
    + destruct Ha as (a & Ha & _). rewrite Ha. reflexivity.
    + by destruct Ha.
  - destruct Hw as [-> _].
    destruct (is_activation_quantization_enabled node).
    + destruct Ha as (a & Ha & _). rewrite Ha. reflexivity.
    + by destruct Ha.
Qed.

(** An exception of a factory is the exception of the function, with the
    state that factory left: when the weights factory raises, the
    activations factory is not run; when the activations factory raises
    after the weights side went through, its exception comes out. *)
Theorem dispatcher_propagates_errors
    (node : @BaseNode NodeType) (h h1 hx : Heap) (e : PyExn) :
  (is_weights_quantization_enabled node = true →
   get_weights_quantizer_for_node node h = (Raise e, hx) →
   dispatch node h = (Raise e, hx)) ∧
  (is_activation_quantization_enabled node = true →
   (if is_weights_quantization_enabled node
    then ∃ q, get_weights_quantizer_for_node node h = (Ok q, h1)
    else h1 = h) →
   get_activations_quantizer_for_node node h1 = (Raise e, hx) →
   dispatch node h = (Raise e, hx)).
Proof.
  split.
  - intros Hw Hr. unfold get_quantization_dispatcher.
    rewrite Hw. unfold bind at 1. unfold bind at 1. rewrite Hr. reflexivity.
  - intros Ha Hw Hr. unfold get_quantization_dispatcher. rewrite Ha.
    destruct (is_weights_quantization_enabled node).
    + destruct Hw as [q Hq]. unfold bind at 1. unfold bind at 1.
      rewrite Hq. unfold ret at 1. unfold bind. rewrite Hr. reflexivity.
    + subst h1. unfold bind at 1. unfold ret at 1. unfold bind.
      rewrite Hr. reflexivity.
Qed.

(** A kind that is enabled can still come out empty: a node type without
    kernel attributes gets no weight quantizer, and a node whose
    output_shape is the empty list gets no activation quantizer, although
    the factory was called. With kernel attributes listed once each, the
    mapping has one entry per attribute; listed repeatedly, fewer. *)
Theorem dispatcher_empty_and_repeated
    (node : @BaseNode NodeType) (h h' : Heap)
    (d : KerasNodeQuantizationDispatcher) :
  dispatch node h = (Ok d, h') →
  (get_kernel_op_attributes (type node) = [] → weight_quantizers d = ∅) ∧
  (output_shape node = ShapeList [] → activation_quantizers d = []) ∧
  (size (weight_quantizers d)
   <= length (get_kernel_op_attributes (type node)))%nat ∧
  (is_weights_quantization_enabled node = true →
   NoDup (get_kernel_op_attributes (type node)) →
   size (weight_quantizers d) = length (get_kernel_op_attributes (type node))).
Proof.
  intros (h1 & Hw & Ha)%dispatcher_inv.
  assert (Hsize : ∀ q,
            size (assign_all (get_kernel_op_attributes (type node)) q ∅)
            = size (list_to_set (get_kernel_op_attributes (type node))
                      : gset Attr)).
  { intros q. rewrite <- (assign_all_dom _ q). symmetry. apply size_dom. }
  split; [| split; [| split]].
  - intros Hk. destruct (is_weights_quantization_enabled node).
    + destruct Hw as (q & _ & ->). rewrite Hk. reflexivity.
    + by destruct Hw.
  - intros Ho. destruct (is_activation_quantization_enabled node).
    + destruct Ha as (q & _ & ->). rewrite Ho. reflexivity.
    + by destruct Ha.
  - destruct (is_weights_quantization_enabled node).
    + destruct Hw as (q & _ & ->). rewrite Hsize.
      apply submseteq_length, NoDup_submseteq; [apply NoDup_elements |].
      intros x Hx. apply elem_of_elements in Hx.
      by apply elem_of_list_to_set in Hx.
    + destruct Hw as [_ ->]. rewrite map_size_empty. lia.
  - intros Hen Hnd. rewrite Hen in Hw. destruct Hw as (q & _ & ->).
    rewrite Hsize. by apply size_list_to_set.
Qed.

End Dispatcher_More.

Lemma dispatcher_effects_in_order_witness :
  ∃ d,
    Dispatcher.get_quantization_dispatcher Claims.kernel_attributes
      (fun _ => Claims.new_quantizer "weights")
      (fun _ => Claims.new_quantizer "activations")
      Claims.sep_conv_node ∅
    = (Ok d, <[2%positive := "activations"]> {[1%positive := "weights"]}).
Proof.
  destruct (Dispatcher.get_quantization_dispatcher Claims.kernel_attributes
              (fun _ => Claims.new_quantizer "weights")
              (fun _ => Claims.new_quantizer "activations")
              Claims.sep_conv_node ∅) as [[d | e] h'] eqn:Hd.
  - exists d. f_equal.
    rewrite (dispatcher_effects_in_order _ _ _ _ _ _ _ Hd).
    vm_compute. reflexivity.
  - vm_compute in Hd. discriminate Hd.
Defined.

Lemma dispatcher_propagates_errors_witness :
  Dispatcher.get_quantization_dispatcher Claims.kernel_attributes
    (fun _ => Claims.new_quantizer "weights")
    (fun _ => raise (TypeError "no activation quantization config"))
    Claims.sep_conv_node ∅
  = (Raise (TypeError "no activation quantization config"),
     {[1%positive := "weights"]}).
Proof.
  apply (proj2 (dispatcher_propagates_errors Claims.kernel_attributes
                  (fun _ => Claims.new_quantizer "weights")
                  (fun _ => raise (TypeError "no activation quantization config"))
                  Claims.sep_conv_node ∅ {[1%positive := "weights"]}
                  {[1%positive := "weights"]}
                  (TypeError "no activation quantization config"))).
  - reflexivity.
  - exists 1%positive. vm_compute. reflexivity.
  - reflexivity.
Defined.

Lemma dispatcher_empty_and_repeated_witness :
  ∃ d h',
    Dispatcher.get_quantization_dispatcher Claims.kernel_attributes
      (fun _ => Claims.new_quantizer "weights")
      (fun _ => Claims.new_quantizer "activations")
      {| Dispatcher.type := "ReLU";
         Dispatcher.output_shape := Dispatcher.ShapeList [];
         Dispatcher.is_weights_quantization_enabled := true;
         Dispatcher.is_activation_quantization_enabled := true |} ∅
    = (Ok d, h') ∧
    Dispatcher.weight_quantizers d = ∅ ∧
    Dispatcher.activation_quantizers d = [] ∧
    size h' = 2%nat.
Proof.
  destruct (Dispatcher.get_quantization_dispatcher Claims.kernel_attributes
              (fun _ => Claims.new_quantizer "weights")
              (fun _ => Claims.new_quantizer "activations")
              {| Dispatcher.type := "ReLU";
                 Dispatcher.output_shape := Dispatcher.ShapeList [];
                 Dispatcher.is_weights_quantization_enabled := true;
                 Dispatcher.is_activation_quantization_enabled := true |} ∅)
    as [[d | e] h'] eqn:Hd.
  - exists d, h'. split; [reflexivity |].
    destruct (dispatcher_empty_and_repeated _ _ _ _ _ _ _ Hd)
      as (Hw & Ha & _ & _).
    split; [apply Hw; reflexivity |]. split; [apply Ha; reflexivity |].
    vm_compute in Hd. injection Hd as _ <-. vm_compute. reflexivity.
  - vm_compute in Hd. discriminate Hd.
Defined.

(** ** The inputs of the second-moment tests *)

Section Fixture_Facts.
Import Fixture.

Context {Array Rng : Type}.
Variable np_random_normal : list Z -> Rng -> Array * Rng.
Variable get_input_shapes : list (list Z).

Lemma draw_all_length (shapes : list (list Z)) (rng : Rng) :
  length (draw_all np_random_normal shapes rng).1 = length shapes.
Proof.
  revert rng. induction shapes as [| sh shapes IH]; intros rng; simpl;
    [reflexivity |].
  destruct (np_random_normal sh rng) as [a rng1].
  specialize (IH rng1).
  destruct (draw_all np_random_normal shapes rng1) as [others rng2].
  simpl in *. by rewrite IH.
Qed.

(** Once inputs exist the method is a pure read. *)
Lemma generate_inputs_again (self : @TestObject Array) (rng : Rng)
    (xs : list Array) :
  i self ≠ 0 → inp self = Some xs →
  generate_inputs np_random_normal get_input_shapes (self, rng)
  = (Ok xs, (self, rng)).
Proof.
  intros Hi Hx. unfold generate_inputs. simpl.
  rewrite bool_decide_eq_false_2 by exact Hi. simpl. rewrite Hx. reflexivity.
Qed.

Lemma draw_all_cons (sh : list Z) (shapes : list (list Z)) (rng : Rng) :
  draw_all np_random_normal (sh :: shapes) rng
  = ((np_random_normal sh rng).1
       :: (draw_all np_random_normal shapes (np_random_normal sh rng).2).1,
     (draw_all np_random_normal shapes (np_random_normal sh rng).2).2).
Proof.
  simpl. destruct (np_random_normal sh rng) as [a rng1]. simpl.
  destruct (draw_all np_random_normal shapes rng1) as [others rng2].
  reflexivity.
Qed.

(** On a test object whose counter is 0 the first call draws one array per
    input shape, from left to right on the running generator, hands these
    arrays back, stores them in inp and sets the counter to 1; every later
    call hands back these same arrays and touches neither the test object
    nor the random generator. *)
Theorem generate_inputs_cached (self : @TestObject Array) (rng : Rng) :
  i self = 0 →
  ∃ xs st1,
    generate_inputs np_random_normal get_input_shapes (self, rng)
    = (Ok xs, st1) ∧
    xs = (draw_all np_random_normal get_input_shapes rng).1 ∧
    (∀ k sh, get_input_shapes !! k = Some sh →
             ∃ rng_k,
               rng_k = (draw_all np_random_normal (take k get_input_shapes)
                          rng).2 ∧
               xs !! k = Some (np_random_normal sh rng_k).1) ∧
    length xs = length get_input_shapes ∧
    st1 = ({| i := 1; inp := Some xs |},
           (draw_all np_random_normal get_input_shapes rng).2) ∧
    ∀ k, generate_inputs_times np_random_normal get_input_shapes k (Ok xs) st1
         = (Ok xs, st1).
Proof.
  intros Hi. unfold generate_inputs at 1. simpl.
  rewrite bool_decide_eq_true_2 by exact Hi. simpl.
  eexists. eexists. split; [reflexivity |].
  split; [reflexivity |]. split.
  - generalize rng. clear Hi.
    induction get_input_shapes as [| sh0 shapes IH]; intros rng0 k sh Hk.
    + by rewrite lookup_nil in Hk.
    + rewrite draw_all_cons. destruct k as [| k]; simpl in Hk.
      * injection Hk as <-. eexists. split; [reflexivity |]. reflexivity.
      * destruct (IH (np_random_normal sh0 rng0).2 k sh Hk) as (rk & -> & Hx).
        eexists. split; [reflexivity |].
        simpl take. rewrite draw_all_cons. simpl. exact Hx.
  - split; [apply draw_all_length |].
    split; [rewrite Hi; reflexivity |].
    intros k. induction k as [| k IH]; simpl; [reflexivity |].
    rewrite (generate_inputs_again _ _
               (draw_all np_random_normal get_input_shapes rng).1).
    + exact IH.
    + simpl. rewrite Hi. discriminate.
    + reflexivity.
Qed.

End Fixture_Facts.

Lemma generate_inputs_cached_witness :
  ∃ xs st1,
    Fixture.generate_inputs Scenarios.counting_normal Scenarios.test_shapes
      (Scenarios.fresh_test_object, 0%nat) = (Ok xs, st1) ∧
    xs = [(0%nat, [128; 32; 32; 1])] ∧
    Fixture.generate_inputs_times Scenarios.counting_normal
      Scenarios.test_shapes 3 (Ok xs) st1 = (Ok xs, st1) ∧
    st1.2 = 1%nat.
Proof.
  destruct (generate_inputs_cached Scenarios.counting_normal
              Scenarios.test_shapes Scenarios.fresh_test_object 0%nat eq_refl)
    as (xs & st1 & Hg & _ & _ & _ & _ & Hk).
  exists xs, st1. split; [exact Hg |].
  vm_compute in Hg. injection Hg as <- <-.
  split; [reflexivity |]. split; [exact (Hk 3%nat) | reflexivity].
Defined.

(** ** The copy made by the second-moment stage *)

Section Copy_Facts.
Import SecondMoment Claims Scenarios.

Context {Tensor : Type} `{EqDecision Tensor} {Model : Type}.

Lemma Forall2_weaken_in {A B : Type} (P Q : A → B → Prop)
    (l1 : list A) (l2 : list B) :
  Forall2 P l1 l2 →
  (∀ a b, b ∈ l2 → P a b → Q a b) →
  Forall2 Q l1 l2.
Proof.
  induction 1 as [| a b l1 l2 Hab _ IH]; intros Himp; constructor.
  - apply Himp; [apply elem_of_cons; by left | exact Hab].
  - apply IH. intros a' b' Hin. apply Himp. apply elem_of_cons. by right.
Qed.

Lemma omap_ext_in {A B : Type} (f g : A → option B) (l : list A) :
  (∀ x, x ∈ l → f x = g x) → omap f l = omap g l.
Proof.
  intros Hfg. apply list_omap_ext.
  induction l as [| x l IH]; constructor.
  - apply Hfg. apply elem_of_cons. by left.
  - apply IH. intros y Hy. apply Hfg. apply elem_of_cons. by right.
Qed.

(** The deep copy of distinct live objects not copied before: as many
    distinct fresh objects, each with the content of its original, the
    originals untouched. *)
Lemma deepcopy_nodes_copy (ls : list loc) :
  ∀ (memo : gmap loc loc) (h : gmap loc (@Node Tensor)) out memo' h',
    deepcopy_nodes ls memo h = (out, memo', h') →
    NoDup ls →
    (∀ l, l ∈ ls → memo !! l = None) →
    (∀ l, l ∈ ls → is_Some (h !! l)) →
    NoDup out ∧
    (∀ l', l' ∈ out → l' ∉ dom h) ∧
    (∀ x, x ∈ dom h → h' !! x = h !! x) ∧
    Forall2 (fun l' l => h' !! l' = h !! l) out ls.
Proof.
  induction ls as [| l ls IH]; intros memo h out memo' h' Hc Hnd Hm Hl;
    simpl in Hc.
  - injection Hc as <- <- <-. split; [constructor |].
    split; [intros l' Hl'; by apply elem_of_nil in Hl' |].
    split; [done | constructor].
  - apply NoDup_cons in Hnd as [Hnotin Hnd].
    rewrite (Hm l) in Hc by (apply elem_of_cons; by left).
    destruct (Hl l) as [n Hn]; [apply elem_of_cons; by left |].
    rewrite Hn in Hc.
    destruct (deepcopy_nodes ls (<[l := fresh (dom h)]> memo)
                (<[fresh (dom h) := n]> h)) as [[out1 memo1] h1] eqn:Er.
    injection Hc as <- <- <-.
    pose proof (is_fresh (dom h)) as Hfresh.
    assert (Hne : ∀ x, x ∈ dom h → fresh (dom h) ≠ x).
    { intros x Hx Heq. apply Hfresh. rewrite Heq. exact Hx. }
    destruct (IH _ _ _ _ _ Er Hnd) as (Hnd1 & Hout & Hf & Hall).
    { intros x Hx. rewrite lookup_insert_ne; [| intros ->; contradiction].
      apply Hm. apply elem_of_cons. by right. }
    { intros x Hx. rewrite lookup_insert_ne.
      - apply Hl. apply elem_of_cons. by right.
      - apply Hne. apply elem_of_dom. apply Hl. apply elem_of_cons. by right. }
    assert (Hin1 : fresh (dom h) ∈ dom (<[fresh (dom h) := n]> h)).
    { rewrite dom_insert_L. apply elem_of_union. left.
      by apply elem_of_singleton. }
    split; [| split; [| split]].
    + apply NoDup_cons. split; [| exact Hnd1].
      intros Hin. by apply (Hout _ Hin).
    + intros l' [-> | Hin]%elem_of_cons; [exact Hfresh |].
      intros Hd. apply (Hout _ Hin). rewrite dom_insert_L.
      apply elem_of_union. by right.
    + intros x Hx. rewrite Hf.
      * apply lookup_insert_ne. by apply Hne.
      * rewrite dom_insert_L. apply elem_of_union. by right.
    + constructor.
      * rewrite (Hf _ Hin1), lookup_insert_eq. symmetry. exact Hn.
      * eapply Forall2_weaken_in; [exact Hall |].
        intros a b Hb ->. apply lookup_insert_ne. apply Hne.
        apply elem_of_dom. apply Hl. apply elem_of_cons. by right.
Qed.

End Copy_Facts.

(** ** The stage as a whole, and the test that runs it *)

Section Stage_Facts.
Import SecondMoment Claims Scenarios.

Context {Tensor : Type} `{EqDecision Tensor} {Model : Type}.
Variables GAMMA BETA MOVING_MEAN MOVING_VARIANCE : string.
Variable core_runner : St (@Store Tensor) loc.
Variable build_model : list (@Node Tensor) -> Model.
Variable measure : Model -> @Node Tensor -> Tensor * Tensor.

Local Abbreviation correct :=
  (correct_node MOVING_MEAN MOVING_VARIANCE measure).
Local Abbreviation stage :=
  (prepare_graph MOVING_MEAN MOVING_VARIANCE core_runner build_model measure).

(** What the stage leaves in the store, for a well-formed graph. *)
Lemma prepare_graph_result (s s1 : @Store Tensor) (tg : loc) (gr : Graph) :
  core_runner s = (Ok tg, s1) →
  wf_graph s1 tg gr →
  ∃ g2 s',
    stage s = (Ok (tg, g2), s') ∧
    graph_heap s' !! tg = Some gr ∧
    (∀ l, l ∈ dom (node_heap s1) → node_heap s' !! l = node_heap s1 !! l) ∧
    graph_nodes s' tg = graph_nodes s1 tg ∧
    graph_nodes s' g2
    = correct (build_model (graph_nodes s1 tg)) <$> graph_nodes s1 tg.
Proof.
  intros Hcr (Hg & Hnd & Hlive).
  unfold prepare_graph. unfold bind at 1. rewrite Hcr.
  unfold bind at 1, deepcopy. rewrite Hg.
  destruct (deepcopy_nodes (nodes gr) ∅ (node_heap s1))
    as [[out memo] h2] eqn:Ed.
  destruct (deepcopy_nodes_copy _ _ _ _ _ _ Ed Hnd)
    as (Hnd2 & Hout & Hf & Hall).
  { intros l _. apply lookup_empty. }
  { exact Hlive. }
  set (g2 := fresh (dom (graph_heap s1))).
  assert (Hg2 : g2 ≠ tg).
  { intros Heq. apply (is_fresh (dom (graph_heap s1))).
    fold g2. rewrite Heq. apply elem_of_dom. by eexists. }
  unfold bind at 1, quantized_model_builder_for_second_moment_correction.
  unfold bind, keras_apply_second_moment_correction, ret. simpl.
  rewrite lookup_insert_eq. simpl.
  assert (Hcopy : omap (fun l => h2 !! l) out
                  = omap (fun l => node_heap s1 !! l) (nodes gr)).
  { by apply list_omap_ext. }
  assert (Hmodel : graph_nodes
                     {| node_heap := h2;
                        graph_heap :=
                          <[g2 := {| nodes := out;
                                     edges := map (fun e => (remap memo e.1,
                                                             remap memo e.2))
                                                  (edges gr) |}]>
                            (graph_heap s1) |} g2
                   = graph_nodes s1 tg).
  { unfold graph_nodes. simpl. rewrite lookup_insert_eq, Hg. simpl.
    exact Hcopy. }
  rewrite Hmodel.
  set (m := build_model (graph_nodes s1 tg)).
  assert (Hframe : ∀ l, l ∈ dom (node_heap s1) →
            foldl (fun h x => alter (correct m) x h) h2 out !! l
            = node_heap s1 !! l).
  { intros l Hl. rewrite foldl_alter_other; [by apply Hf |].
    intros Hin. by apply (Hout l Hin). }
  eexists. eexists. split; [reflexivity |]. simpl.
  split; [by rewrite lookup_insert_ne |].
  split; [exact Hframe |].
  split.
  - unfold graph_nodes. simpl. rewrite lookup_insert_ne by exact Hg2.
    rewrite Hg. apply omap_ext_in. intros l Hl. apply Hframe.
    apply elem_of_dom. by apply Hlive.
  - unfold graph_nodes at 1. simpl. rewrite lookup_insert_eq. simpl.
    rewrite (omap_ext_in _ (fun l => correct m <$> h2 !! l)).
    + rewrite <- list_fmap_omap. f_equal. unfold graph_nodes. rewrite Hg.
      exact Hcopy.
    + intros l Hl. by apply foldl_alter_once.
Qed.

(** For a well-formed graph (distinct references to live nodes) the second
    graph the stage hands back holds, node for node and in the same order,
    the corrected version of the nodes of the pipeline's graph, the
    statistics being measured on a model built from a copy equal to that
    graph; the pipeline's graph still holds its own nodes. *)
Theorem prepare_graph_corrects_copy
    (s s1 : @Store Tensor) (tg : loc) (gr : Graph) :
  core_runner s = (Ok tg, s1) →
  wf_graph s1 tg gr →
  ∃ g2 s',
    stage s = (Ok (tg, g2), s') ∧
    graph_nodes s' tg = graph_nodes s1 tg ∧
    graph_nodes s' g2
    = correct (build_model (graph_nodes s1 tg)) <$> graph_nodes s1 tg ∧
    length (graph_nodes s' g2) = length (nodes gr).
Proof.
  intros Hcr Hwf.
  destruct (prepare_graph_result s s1 tg gr Hcr Hwf)
    as (g2 & s' & Hs & _ & _ & Hsame & Hcopy).
  exists g2, s'. split; [exact Hs |]. split; [exact Hsame |].
  split; [exact Hcopy |].
  rewrite Hcopy, length_fmap. destruct Hwf as (Hg & _ & Hlive).
  unfold graph_nodes. rewrite Hg.
  clear -Hlive. induction (nodes gr) as [| l ls IH]; [reflexivity |].
  destruct (Hlive l) as [n Hn]; [apply elem_of_cons; by left |].
  simpl. rewrite Hn. simpl. f_equal. apply IH.
  intros x Hx. apply Hlive. apply elem_of_cons. by right.
Qed.

End Stage_Facts.

Lemma prepare_graph_corrects_copy_witness :
  ∃ g2 s',
    Claims.test_prepare_graph Claims.test_store = (Ok (1%positive, g2), s') ∧
    SecondMoment.layer_class <$> SecondMoment.graph_nodes s' g2
    = [SecondMoment.InputLayer; SecondMoment.Conv2D;
       SecondMoment.BatchNormalization; SecondMoment.Activation] ∧
    (fun n => SecondMoment.get_weights_by_keys n "moving_mean")
      <$> SecondMoment.graph_nodes s' g2
    = [None; None; Some 800; None].
Proof.
  destruct (prepare_graph_corrects_copy "moving_mean" "moving_variance"
              Claims.test_core_runner (fun _ => tt) Claims.test_measure
              Claims.test_store Claims.test_store 1%positive
              {| SecondMoment.nodes := [1; 2; 3; 4]%positive;
                 SecondMoment.edges := [(1, 2); (2, 3); (3, 4)]%positive |}
              eq_refl)
    as (g2 & s' & Hs & _ & Hc & _).
  - split; [vm_compute; reflexivity |].
    split; [apply (bool_decide_unpack _); vm_compute; exact I |].
    intros l Hl.
    repeat (apply elem_of_cons in Hl as [-> | Hl];
            [eexists; vm_compute; reflexivity |]).
    by apply elem_of_nil in Hl.
  - exists g2, s'. split; [exact Hs |]. rewrite Hc.
    split; vm_compute; reflexivity.
Defined.

(** ** The assertions of the value test *)

Section Test_Facts.
Import SecondMoment Claims Scenarios.

Context {Tensor : Type} `{EqDecision Tensor} {Model : Type}.
Variables GAMMA BETA MOVING_MEAN MOVING_VARIANCE : string.
Variable core_runner : St (@Store Tensor) loc.
Variable build_model : list (@Node Tensor) -> Model.
Variable measure : Model -> @Node Tensor -> Tensor * Tensor.

Local Abbreviation correct :=
  (correct_node MOVING_MEAN MOVING_VARIANCE measure).
Local Abbreviation check :=
  (check_node GAMMA BETA MOVING_MEAN MOVING_VARIANCE).

(** For a batch-normalization node of the corrected graph whose name is
    found in the pipeline's graph, the loop body of the test goes through
    exactly when gamma and beta of the two nodes are equal and both moving
    statistics differ; otherwise it stops with an AssertionError. A node of
    any other layer class is passed over without a lookup. *)
Theorem check_node_passes_iff
    (find : @Store Tensor → loc → string → Found) (s : @Store Tensor)
    (tg : loc) (node node0 : @Node Tensor) (l0 : loc) (rest : list loc) :
  (layer_class node ≠ BatchNormalization → check find s tg node = Ok tt) ∧
  (layer_class node = BatchNormalization →
   find s tg (name node) = FoundList (l0 :: rest) →
   node_heap s !! l0 = Some node0 →
   (check find s tg node = Ok tt ↔
    get_weights_by_keys node0 GAMMA = get_weights_by_keys node GAMMA ∧
    get_weights_by_keys node0 BETA = get_weights_by_keys node BETA ∧
    get_weights_by_keys node0 MOVING_MEAN
      ≠ get_weights_by_keys node MOVING_MEAN ∧
    get_weights_by_keys node0 MOVING_VARIANCE
      ≠ get_weights_by_keys node MOVING_VARIANCE) ∧
   (check find s tg node = Ok tt ∨
    ∃ msg, check find s tg node = Raise (AssertionError msg))).
Proof.
  split.
  - intros Hne. unfold check_node.
    rewrite bool_decide_eq_false_2 by exact Hne. reflexivity.
  - intros Hbn Hfind Hl0. unfold check_node, bf_second_moment_node.
    rewrite bool_decide_eq_true_2 by exact Hbn.
    rewrite Hfind. simpl. rewrite Hl0.
    destruct (decide (get_weights_by_keys node0 GAMMA
                      = get_weights_by_keys node GAMMA)) as [Hg | Hg];
      [rewrite (bool_decide_eq_true_2 _ Hg)
      | rewrite (bool_decide_eq_false_2 _ Hg)]; simpl;
      [| split; [split; [discriminate | intros [? _]; contradiction]
                | right; eexists; reflexivity]].
    destruct (decide (get_weights_by_keys node0 BETA
                      = get_weights_by_keys node BETA)) as [Hb | Hb];
      [rewrite (bool_decide_eq_true_2 _ Hb)
      | rewrite (bool_decide_eq_false_2 _ Hb)]; simpl;
      [| split; [split; [discriminate | intros (_ & ? & _); contradiction]
                | right; eexists; reflexivity]].
    destruct (decide (get_weights_by_keys node0 MOVING_MEAN
                      = get_weights_by_keys node MOVING_MEAN)) as [Hm | Hm];
      [rewrite (bool_decide_eq_true_2 _ Hm)
      | rewrite (bool_decide_eq_false_2 _ Hm)]; simpl;
      [split; [split; [discriminate | intros (_ & _ & ? & _); contradiction]
              | right; eexists; reflexivity] |].
    destruct (decide (get_weights_by_keys node0 MOVING_VARIANCE
                      = get_weights_by_keys node MOVING_VARIANCE)) as [Hv | Hv];
      [rewrite (bool_decide_eq_true_2 _ Hv)
      | rewrite (bool_decide_eq_false_2 _ Hv)]; simpl.
    + split; [split; [discriminate | intros (_ & _ & _ & ?); contradiction]
             | right; eexists; reflexivity].
    + split; [split; [intros _; by repeat split | reflexivity] | by left].
Qed.

End Test_Facts.

Lemma check_node_passes_iff_witness :
  SecondMoment.check_node "gamma" "beta" "moving_mean" "moving_variance"
    Scenarios.list_lookup Claims.test_store 1%positive
    (SecondMoment.correct_node "moving_mean" "moving_variance"
       Claims.test_measure tt Claims.bn_node)
  = Ok tt ∧
  (∃ msg,
     SecondMoment.check_node "gamma" "beta" "moving_mean" "moving_variance"
       Scenarios.list_lookup Claims.test_store 1%positive
       Claims.bn_node
     = Raise (AssertionError msg)).
Proof.
  split.
  - apply (proj1 (proj2 (check_node_passes_iff
                           "gamma" "beta" "moving_mean" "moving_variance"
                           Scenarios.list_lookup Claims.test_store
                           1%positive
                           (SecondMoment.correct_node "moving_mean"
                              "moving_variance" Claims.test_measure tt
                              Claims.bn_node)
                           Claims.bn_node 3%positive [])
                         eq_refl eq_refl eq_refl)).
    split; [vm_compute; reflexivity |]. split; [vm_compute; reflexivity |].
    split; vm_compute; discriminate.
  - destruct (proj2 (proj2 (check_node_passes_iff
                              "gamma" "beta" "moving_mean" "moving_variance"
                              Scenarios.list_lookup Claims.test_store
                              1%positive Claims.bn_node Claims.bn_node
                              3%positive [])
                            eq_refl eq_refl eq_refl)) as [Hok | Hraise].
    + vm_compute in Hok. discriminate Hok.
    + exact Hraise.
Defined.

